(** * pysolarcloud: the realtime-data resolver and the capability check

    A shallow embedding of [src/pysolarcloud/plants.py] and
    [src/pysolarcloud/control.py], and the properties of the specification
    proved (or refuted) on it.

    Modelling choices.
    - A Python [str] is a Rocq [string] whose characters are read as the
      code points 0..255.  On that range [str.isdigit] is exact (see
      [isdigit_char]).
    - A decoded JSON body is a [json] value; a JSON object keeps the order
      of its members (Python dicts iterate in insertion order) and lists
      each key once.
    - The dicts the code builds ([measure_points_map], [point_dict],
      [data_as_dict], [plants]) are only ever read by key: they are [gmap]s.
    - Exceptions are values of [exn]; a computation that can raise returns
      a [result].
    - [self.auth.request] is the one effect: code that awaits it is a
      [prog], a tree whose [Request] nodes are the calls made, and [run]
      executes such a tree against a transport and logs the requests.
    - [float(...)] on a string and on an int, and [repr] of a float and of
      a string, are builtins of the language: the development is
      parametrised by them ([Builtins]).
    - The [_LOGGER] calls are not modelled. *)

From Stdlib Require Import ZArith Floats Uint63 Ascii String.
From stdpp Require Import base option list strings gmap pretty.

Local Open Scope string_scope.
Local Open Scope Z_scope.

(** ** Python values *)

(** What [json.loads] produces. *)
Unset Elimination Schemes.
Inductive json : Type :=
  | JNull
  | JBool (b : bool)
  | JInt (z : Z)
  | JFloat (f : float)
  | JStr (s : string)
  | JList (l : list json)
  | JDict (d : list (string * json)).
Set Elimination Schemes.

Abbreviation pydict := (list (string * json)).

Inductive exn : Type :=
  | KeyError (key : json)
  | IndexError
  | TypeError
  | AttributeError
  | ValueError
  | OverflowError
  | PySolarCloudException (arg : json)
  | TransportError (what : string).

Inductive result (A : Type) : Type :=
  | Ok (a : A)
  | Raise (e : exn).
Arguments Ok {A} a.
Arguments Raise {A} e.

#[global] Instance result_ret : MRet result := fun _ a => Ok a.
#[global] Instance result_bind : MBind result := fun _ _ f m =>
  match m with
  | Ok a => f a
  | Raise e => Raise e
  end.
#[global] Instance result_fmap : FMap result := fun _ _ f m =>
  match m with
  | Ok a => Ok (f a)
  | Raise e => Raise e
  end.

Definition is_Ok {A} (m : result A) : bool :=
  match m with Ok _ => true | Raise _ => false end.

(** [[f(x) for x in l]] where [f] can raise: left to right, the first
    exception ends the comprehension. *)
Fixpoint comprehension {A B} (f : A -> result B) (l : list A) : result (list B) :=
  match l with
  | [] => Ok []
  | x :: l' => y ← f x; ys ← comprehension f l'; Ok (y :: ys)
  end.

(** *** Strings *)

(** [str.isdigit] on one character below U+0100: the decimal digits and
    the superscripts two, three and one (U+00B2, U+00B3, U+00B9), which
    carry the Unicode property Numeric_Type=Digit. *)
Definition isdigit_char (c : ascii) : bool :=
  let n := N_of_ascii c in
  ((48 <=? n) && (n <=? 57) || (n =? 178) || (n =? 179) || (n =? 185))%N.

Fixpoint all_chars (p : ascii -> bool) (s : string) : bool :=
  match s with
  | EmptyString => true
  | String c s' => p c && all_chars p s'
  end.

(** [s.isdigit()]: every character is a digit and there is at least one. *)
Definition isdigit (s : string) : bool :=
  match s with
  | EmptyString => false
  | _ => all_chars isdigit_char s
  end.

(** [sub in s] on strings. *)
Fixpoint str_contains (sub s : string) : bool :=
  String.prefix sub s ||
  match s with
  | EmptyString => false
  | String _ s' => str_contains sub s'
  end.

Fixpoint str_chars (s : string) : list string :=
  match s with
  | EmptyString => []
  | String c s' => String c EmptyString :: str_chars s'
  end.

Fixpoint join (sep : string) (l : list string) : string :=
  match l with
  | [] => ""
  | [x] => x
  | x :: l' => x +:+ sep +:+ join sep l'
  end.

(** *** Dict and sequence operations on decoded values *)

(** [d.get(k)] on the members of a dict; [None] when [k] is absent. *)
Fixpoint dict_get {A} (k : string) (d : list (string * A)) : option A :=
  match d with
  | [] => None
  | (k', v) :: d' => if String.eqb k' k then Some v else dict_get k d'
  end.

(** [j == s] for a string literal [s]: only an equal [str] compares equal. *)
Definition eq_str (j : json) (s : string) : bool :=
  match j with
  | JStr s' => bool_decide (s' = s)
  | _ => false
  end.

(** [s in j] for a string literal [s]. *)
Definition py_in (s : string) (j : json) : result bool :=
  match j with
  | JDict d => Ok (bool_decide (is_Some (dict_get s d)))
  | JList l => Ok (existsb (fun x => eq_str x s) l)
  | JStr t => Ok (str_contains s t)
  | _ => Raise TypeError
  end.

(** [j[k]] for a string key. *)
Definition getitem (j : json) (k : string) : result json :=
  match j with
  | JDict d =>
      match dict_get k d with
      | Some v => Ok v
      | None => Raise (KeyError (JStr k))
      end
  | _ => Raise TypeError
  end.

(** [j[0]]. *)
Definition getitem0 (j : json) : result json :=
  match j with
  | JList (x :: _) => Ok x
  | JList [] => Raise IndexError
  | JStr (String c _) => Ok (JStr (String c EmptyString))
  | JStr EmptyString => Raise IndexError
  | JDict _ => Raise (KeyError (JInt 0))
  | _ => Raise TypeError
  end.

(** [j.get(k)]: only a dict has the method. *)
Definition get (j : json) (k : string) : result json :=
  match j with
  | JDict d => Ok (default JNull (dict_get k d))
  | _ => Raise AttributeError
  end.

(** [j.items()]. *)
Definition items (j : json) : result pydict :=
  match j with
  | JDict d => Ok d
  | _ => Raise AttributeError
  end.

(** [for x in j]: the elements of a list, the keys of a dict, the
    characters of a string. *)
Definition iter (j : json) : result (list json) :=
  match j with
  | JList l => Ok l
  | JDict d => Ok (JStr <$> d.*1)
  | JStr s => Ok (JStr <$> str_chars s)
  | _ => Raise TypeError
  end.

(** ** The builtins the code relies on *)

Class Builtins := {
  (** [float(s)] for a string; [None] is [ValueError]. *)
  float_of_str : string -> option float;
  (** [float(n)] for an int; [None] is [OverflowError]. *)
  float_of_int : Z -> option float;
  repr_float : float -> string;
  repr_str : string -> string;
}.

(** A sample instance, for running the model on concrete calls; no
    theorem about the code depends on it.
    - [float_of_str] reads [sign] [digits] [. digits] with a mantissa below
      2^53 and at most 18 digits after the point, as the quotient of two
      integers that are doubles, which is the double nearest the decimal;
      it rejects everything else, also the other spellings Python reads
      (spaces, exponents, underscores, [inf], [nan], longer numerals).
    - [float_of_int] converts an int below 2^63 in absolute value,
      rounding to nearest even as [float] does; it rejects larger ones,
      also those Python still converts.
    - [repr_float] is a placeholder, not Python's shortest numeral;
      [repr_str] is right for strings without quotes, backslashes or
      control characters. *)
Fixpoint decimal_digits (s : string) (acc : Z) (scale : option Z) : option (Z * Z) :=
  match s with
  | EmptyString => Some (acc, default 1 scale)
  | String c s' =>
      let n := Z.of_N (N_of_ascii c) in
      if (48 <=? n) && (n <=? 57) then
        decimal_digits s' (10 * acc + (n - 48)) ((fun k => 10 * k) <$> scale)
      else if (n =? 46) && bool_decide (scale = None) then
        decimal_digits s' acc (Some 1)
      else None
  end.

Definition decimal_float_of_int (z : Z) : option float :=
  if (0 <=? z) && (z <? 2 ^ 63) then Some (PrimFloat.of_uint63 (Uint63.of_Z z))
  else if (- 2 ^ 63 <? z) && (z <? 0) then
    Some (PrimFloat.opp (PrimFloat.of_uint63 (Uint63.of_Z (- z))))
  else None.

Definition unsigned_float_of_str (s : string) : option float :=
  match s with
  | EmptyString | "." => None
  | _ =>
      '(m, k) ← decimal_digits s 0 None;
      if (m <? 2 ^ 53) && (k <=? 10 ^ 18) then
        Some (PrimFloat.div (PrimFloat.of_uint63 (Uint63.of_Z m))
                            (PrimFloat.of_uint63 (Uint63.of_Z k)))
      else None
  end.

Definition decimal_float_of_str (s : string) : option float :=
  match s with
  | String c s' =>
      if Ascii.eqb c "-" then PrimFloat.opp <$> unsigned_float_of_str s'
      else if Ascii.eqb c "+" then unsigned_float_of_str s'
      else unsigned_float_of_str s
  | EmptyString => None
  end.

Definition sample_builtins : Builtins := {|
  float_of_str := decimal_float_of_str;
  float_of_int := decimal_float_of_int;
  repr_float := fun _ => "<float>";
  repr_str := fun s => "'" +:+ s +:+ "'";
|}.

(** ** The transport collaborator *)

(** The arguments of [self.auth.request(uri, params, lang=...)]. *)
Record request := {
  req_uri : string;
  req_params : pydict;
  req_lang : option string;
}.

(** What [self.auth.request] returns: an object whose
    [raise_for_status()] passes or raises and whose [json()] decodes the
    body or raises. *)
Record response := {
  raise_for_status : result ();
  resp_json : result json;
}.

(** Code that may await the transport. *)
Inductive prog (A : Type) : Type :=
  | Ret (a : A)
  | Throw (e : exn)
  | Request (r : request) (k : response -> prog A).
Arguments Ret {A} a.
Arguments Throw {A} e.
Arguments Request {A} r k.

Fixpoint prog_bind_def {A B} (f : A -> prog B) (m : prog A) : prog B :=
  match m with
  | Ret a => f a
  | Throw e => Throw e
  | Request r k => Request r (fun resp => prog_bind_def f (k resp))
  end.

#[global] Instance prog_ret : MRet prog := fun _ a => Ret a.
#[global] Instance prog_bind : MBind prog := fun _ _ f m => prog_bind_def f m.

(** A step that awaits nothing. *)
Definition lift {A} (m : result A) : prog A :=
  match m with
  | Ok a => Ret a
  | Raise e => Throw e
  end.

(** [await self.auth.request(...)]. *)
Definition auth_request (r : request) : prog response := Request r Ret.

(** Running a program against a transport: the requests issued, in order,
    and the outcome.  An exception of the transport ends the run. *)
Fixpoint run {A} (transport : request -> result response) (p : prog A)
  : list request * result A :=
  match p with
  | Ret a => ([], Ok a)
  | Throw e => ([], Raise e)
  | Request r k =>
      match transport r with
      | Ok resp => let '(log, out) := run transport (k resp) in (r :: log, out)
      | Raise e => ([r], Raise e)
      end
  end.

Section Python.
Context `{Builtins}.

(** [repr(j)]. *)
Fixpoint py_repr (j : json) : string :=
  match j with
  | JNull => "None"
  | JBool true => "True"
  | JBool false => "False"
  | JInt z => pretty z
  | JFloat f => repr_float f
  | JStr s => repr_str s
  | JList l => "[" +:+ join ", " (map py_repr l) +:+ "]"
  | JDict d =>
      "{" +:+ join ", " (map (fun kv => repr_str kv.1 +:+ ": " +:+ py_repr kv.2) d) +:+ "}"
  end.

(** [str(j)]: a string is itself, everything else its [repr]. *)
Definition py_str (j : json) : string :=
  match j with
  | JStr s => s
  | _ => py_repr j
  end.

(** [float(j)]; a bool is the int 0 or 1. *)
Definition py_float (j : json) : result float :=
  match j with
  | JStr s => from_option Ok (Raise ValueError) (float_of_str s)
  | JInt z => from_option Ok (Raise OverflowError) (float_of_int z)
  | JBool b => from_option Ok (Raise OverflowError) (float_of_int (if b then 1 else 0))
  | JFloat f => Ok f
  | _ => Raise TypeError
  end.
End Python.

(** ** plants.py *)

Module Plants.

(** The attributes of a [Plants] object other than [auth], which is the
    transport a program is run against. *)
Record self_t := { lang : string }.

(** [__init__]'s default for [lang]. *)
Definition default_self : self_t := {| lang := "_en_US" |}.

(** The class attribute [measure_points], in the order of the source. *)
Definition measure_points : list (string * string) := [
  ("83022", "daily_yield");
  ("83024", "total_yield");
  ("83033", "power");
  ("83019", "power_fraction");
  ("83006", "meter_daily_yield");
  ("83020", "meter_total_yield");
  ("83011", "meter_e_daily_consumption");
  ("83021", "accumulative_power_consumption_by_meter");
  ("83032", "meter_ac_power");
  ("83007", "meter_pr");
  ("83002", "inverter_ac_power");
  ("83009", "inverter_daily_yield");
  ("83004", "inverter_total_yield");
  ("83012", "p_radiation_h");
  ("83013", "daily_irradiation");
  ("83023", "plant_pr");
  ("83005", "daily_equivalent_hours");
  ("83025", "plant_equivalent_hours");
  ("83018", "daily_yield_theoretical");
  ("83001", "inverter_ac_power_normalization");
  ("83008", "daily_equivalent_hours_of_inverter");
  ("83010", "inverter_pr");
  ("83016", "plant_ambient_temperature");
  ("83017", "plant_module_temperature");
  ("83046", "pcs_total_active_power");
  ("83052", "total_load_active_power");
  ("83067", "total_active_power_of_pv");
  ("83097", "daily_direct_energy_consumption");
  ("83100", "total_direct_energy_consumption");
  ("83102", "energy_purchased_today");
  ("83105", "total_purchased_energy");
  ("83106", "load_power");
  ("83118", "daily_load_consumption");
  ("83124", "total_load_consumption");
  ("83119", "daily_feed_in_energy_pv");
  ("83072", "feed_in_energy_today");
  ("83075", "feed_in_energy_total");
  ("83252", "battery_level_soc");
  ("83129", "battery_soc");
  ("83232", "total_field_soc");
  ("83233", "total_field_maximum_rechargeable_power");
  ("83234", "total_field_maximum_dischargeable_power");
  ("83235", "total_field_chargeable_energy");
  ("83236", "total_field_dischargeable_energy");
  ("83237", "total_field_energy_storage_maximum_reactive_power");
  ("83238", "total_field_energy_storage_active_power");
  ("83239", "total_field_reactive_power");
  ("83240", "total_field_power_factor");
  ("83243", "daily_field_charge_capacity");
  ("83241", "total_field_charge_capacity");
  ("83244", "daily_field_discharge_capacity");
  ("83242", "total_field_discharge_capacity");
  ("83548", "total_number_of_charge_discharge");
  ("83549", "grid_active_power");
  ("83419", "daily_highest_inverter_power_inverter_installed_capacity");
  ("83317", "power_forecast");
  ("83318", "planned_es_charging_discharging_power");
  ("83319", "planned_es_soc");
  ("83320", "planned_charging_power");
  ("83321", "planned_discharging_power");
  ("83322", "ess_daily_charge_ems");
  ("83324", "energy_storage_cumulative_charge");
  ("83323", "ess_daily_discharge_ems");
  ("83325", "cumulative_discharge");
  ("83327", "energy_storage_remaining_charge");
  ("83326", "energy_storage_active_power_ems");
  ("83328", "grid_active_power_ems");
  ("83329", "pv_active_power_ems");
  ("83330", "load_active_power_ems");
  ("83331", "daily_pv_yield_ems");
  ("83332", "total_pv_yield");
  ("83334", "energy_storage_soc_ems");
  ("83335", "energy_storage_remaining_charge_ems")
].

(** One entry of the inner dicts of the result. *)
Record Reading := {
  reading_id : string;      (* "id" *)
  reading_code : string;    (* "code" *)
  reading_value : json;     (* "value" *)
  reading_unit : json;      (* "unit" *)
  reading_name : json;      (* "name" *)
}.

(** [plant_id: str | list[str]] *)
Inductive plant_id_t :=
  | One (p : string)
  | Many (l : list string).

(** [{v: k for k, v in self.measure_points.items()}] *)
Definition measure_points_map : gmap string string :=
  foldl (fun acc kv => <[kv.2 := kv.1]> acc) ∅ measure_points.

(** [m if m.isdigit() else measure_points_map[m]] *)
Definition resolve (m : string) : result string :=
  if isdigit m then Ok m
  else match measure_points_map !! m with
       | Some i => Ok i
       | None => Raise (KeyError (JStr m))
       end.

(** Lines 59-62: a single plant id is a list of one. *)
Definition ps_list (plant_id : plant_id_t) : list string :=
  match plant_id with
  | Many l => l
  | One p => [p]
  end.

(** [self.measure_points.get(point_id, point_id)] *)
Definition code_of (point_id : string) : string :=
  default point_id (dict_get point_id measure_points).

(** Lines 63-67: the point ids to request. *)
Definition point_ids (measure_points_arg : option (list string)) : result (list string) :=
  match measure_points_arg with
  | None => Ok measure_points.*1
  | Some l => comprehension resolve l
  end.

Definition realtime_uri : string := "/openapi/platform/getPowerStationRealTimeData".

(** The request of line 69. *)
Definition realtime_request (self : self_t) (ps ms : list string) : request := {|
  req_uri := realtime_uri;
  req_params := [("ps_id_list", JList (JStr <$> ps));
                 ("point_id_list", JList (JStr <$> ms));
                 ("is_get_point_dict", JStr "1")];
  req_lang := Some (lang self);
|}.

(** [k[0]=='p' and k[1:].isdigit()] *)
Definition is_point_field (k : string) : result bool :=
  match k with
  | EmptyString => Raise IndexError
  | String c k' => Ok (bool_decide (c = "p"%char) && isdigit k')
  end.

(** [k[1:]] *)
Definition tail (k : string) : string :=
  match k with
  | EmptyString => EmptyString
  | String _ k' => k'
  end.

(** [dict(pairs)] and [{k: v for ...}]: a later pair overwrites an
    earlier one with the same key. *)
Definition dict_of {A} (pairs : list (string * A)) : gmap string A :=
  foldl (fun acc kv => <[kv.1 := kv.2]> acc) ∅ pairs.

(** Line 78: [{d["code"]: d for d in data}] *)
Definition data_as_dict (data : list Reading) : gmap string Reading :=
  dict_of ((fun d => (reading_code d, d)) <$> data).

Section WithBuiltins.
Context `{Builtins}.

(** Lines 84-87: the [try] block of [_format_measure_point]. *)
Definition coerce (point_value : json) : result json :=
  match point_value with
  | JNull => Ok JNull
  | _ =>
      match py_float point_value with
      | Ok f => Ok (JFloat f)
      | Raise ValueError => Ok point_value
      | Raise e => Raise e
      end
  end.

(** The entries of [point_dict] are the objects of the response's
    [point_dict] list, each a dict (line 74 subscripts it with a
    string). *)
Definition _format_measure_point (point_id : string) (point_value : json)
    (point_dict : gmap string pydict) : result Reading :=
  v ← coerce point_value;
  Ok {| reading_id := point_id;
        reading_code := code_of point_id;
        reading_value := v;
        reading_unit :=
          default JNull (dict_get "point_unit" (default [] (point_dict !! point_id)));
        reading_name :=
          default JNull (dict_get "point_name" (default [] (point_dict !! point_id))) |}.

(** [(str(point["point_id"]), point)] *)
Definition point_entry (point : json) : result (string * pydict) :=
  match point with
  | JDict d =>
      match dict_get "point_id" d with
      | Some i => Ok (py_str i, d)
      | None => Raise (KeyError (JStr "point_id"))
      end
  | _ => Raise TypeError
  end.

(** Line 77: the readings of one plant record, in the order of its
    fields. *)
Fixpoint plant_data (fields : pydict) (point_dict : gmap string pydict)
  : result (list Reading) :=
  match fields with
  | [] => Ok []
  | (k, v) :: fields' =>
      b ← is_point_field k;
      if b : bool then
        d ← _format_measure_point (tail k) v point_dict;
        ds ← plant_data fields' point_dict;
        Ok (d :: ds)
      else plant_data fields' point_dict
  end.

(** Lines 76-79: the loop over the plant records. *)
Fixpoint for_plants (l : list json) (point_dict : gmap string pydict)
    (plants : gmap string (gmap string Reading))
  : result (gmap string (gmap string Reading)) :=
  match l with
  | [] => Ok plants
  | plant :: l' =>
      fields ← items plant;
      data ← plant_data fields point_dict;
      ps_id ← getitem plant "ps_id";
      for_plants l' point_dict (<[py_str ps_id := data_as_dict data]> plants)
  end.

(** Lines 74-81: from the decoded body to the result. *)
Definition reshape (res : json) : result (gmap string (gmap string Reading)) :=
  result_data ← getitem res "result_data";
  points ← getitem result_data "point_dict";
  points ← iter points;
  entries ← comprehension point_entry points;
  let point_dict := dict_of entries in
  result_data ← getitem res "result_data";
  device_point_list ← getitem result_data "device_point_list";
  device_point_list ← iter device_point_list;
  for_plants device_point_list point_dict ∅.

Definition async_get_realtime_data (self : self_t) (plant_id : plant_id_t)
    (measure_points_arg : option (list string))
  : prog (gmap string (gmap string Reading)) :=
  let ps := ps_list plant_id in
  ms ← lift (point_ids measure_points_arg);
  res ← auth_request (realtime_request self ps ms);
  res ← lift (resp_json res);
  err ← lift (py_in "error" res);
  if err : bool then Throw (PySolarCloudException res)
  else lift (reshape res).
End WithBuiltins.

(** [async_get_plants] and [async_get_plant_details] raise
    [PySolarCloudException(res)] with [res] the response object of the
    transport (in [async_get_realtime_data] the name [res] has been
    rebound to the decoded body by then).  An [exn] cannot hold a
    response, so for these two functions that raise is the outcome
    [RaisePySolarCloudException res]; every other exception is an [exn]
    as before. *)
Inductive outcome (A : Type) : Type :=
  | Return (a : A)
  | RaisePySolarCloudException (res : response).
Arguments Return {A} a.
Arguments RaisePySolarCloudException {A} res.

Definition plants_uri : string := "/openapi/platform/queryPowerStationList".

(** The request of line 14; no [lang] is passed. *)
Definition plants_request : request := {|
  req_uri := plants_uri;
  req_params := [("page", JInt 1); ("size", JInt 100)];
  req_lang := None;
|}.

(** Lines 11-22. *)
Definition async_get_plants : prog (outcome (list json)) :=
  res ← auth_request plants_request;
  _ ← lift (raise_for_status res);
  data ← lift (resp_json res);
  err ← lift (py_in "error" data);
  if err : bool then Ret (RaisePySolarCloudException res)
  else
    result_data ← lift (getitem data "result_data");
    page_list ← lift (getitem result_data "pageList");
    plants ← lift (iter page_list);
    Ret (Return plants).

Definition details_uri : string := "/openapi/platform/getPowerStationDetail".

(** Lines 26-29: [",".join(plant_id)] for a list. *)
Definition ps_ids (plant_id : plant_id_t) : string :=
  match plant_id with
  | Many l => join "," l
  | One p => p
  end.

(** The request of line 31; no [lang] is passed. *)
Definition details_request (plant_id : plant_id_t) : request := {|
  req_uri := details_uri;
  req_params := [("ps_ids", JStr (ps_ids plant_id))];
  req_lang := None;
|}.

(** Lines 24-38; [raise_for_status] is not called here. *)
Definition async_get_plant_details (plant_id : plant_id_t) : prog (outcome json) :=
  res ← auth_request (details_request plant_id);
  data ← lift (resp_json res);
  err ← lift (py_in "error" data);
  if err : bool then Ret (RaisePySolarCloudException res)
  else
    result_data ← lift (getitem data "result_data");
    plants ← lift (getitem result_data "data_list");
    Ret (Return plants).

End Plants.

(** ** control.py *)

Module Control.

Definition check_uri : string := "/openapi/platform/paramSettingCheck".

(** The request of line 12; [device_uuid] is a [str], so
    [str(device_uuid)] is [device_uuid], and no [lang] is passed. *)
Definition check_request (device_uuid : string) (set_type : Z) : request := {|
  req_uri := check_uri;
  req_params := [("set_type", JInt set_type); ("uuid", JStr device_uuid)];
  req_lang := None;
|}.

Section WithBuiltins.
Context `{Builtins}.

(** The f-string of line 22. *)
Definition check_failed (device_uuid : string) (set_type : Z) (data : json) : exn :=
  PySolarCloudException
    (JStr ("Could not check support for device " +:+ device_uuid +:+
           " set_type " +:+ pretty set_type +:+ ": " +:+ py_str data)).

(** Line 16: the condition of the [if]; [and] evaluates its right
    operand only when the left one holds. *)
Definition check_passed (data : json) : result bool :=
  result_code ← get data "result_code";
  if eq_str result_code "1" then
    result_data ← getitem data "result_data";
    check_result ← getitem result_data "check_result";
    Ok (eq_str check_result "1")
  else Ok false.

(** Lines 16-22: from the decoded body to the answer. *)
Definition verdict (device_uuid : string) (set_type : Z) (data : json) : result bool :=
  passed ← check_passed data;
  if passed : bool then
    result_data ← getitem data "result_data";
    dev_result_list ← getitem result_data "dev_result_list";
    dev ← getitem0 dev_result_list;
    supported ← getitem dev "check_result";
    if eq_str supported "1" then Ok true
    else if eq_str supported "0" then Ok false
    else Raise (check_failed device_uuid set_type data)
  else Raise (check_failed device_uuid set_type data).

Definition async_param_config_verification (device_uuid : string) (set_type : Z)
  : prog bool :=
  res ← auth_request (check_request device_uuid set_type);
  _ ← lift (raise_for_status res);
  data ← lift (resp_json res);
  lift (verdict device_uuid set_type data).

Definition async_check_read_support (device_uuid : string) : prog bool :=
  async_param_config_verification device_uuid 2.

Definition async_check_update_support (device_uuid : string) : prog bool :=
  async_param_config_verification device_uuid 0.
End WithBuiltins.

End Control.

(** ** Readings of the specification and sample data *)

(** A registered numeric id is a key of [measure_points]; a registered
    semantic name is the value of one. *)
Definition registered_id (i : string) : Prop :=
  is_Some (dict_get i Plants.measure_points).
Definition registered_name (n : string) : Prop :=
  ∃ i, dict_get i Plants.measure_points = Some n.

(** A body of the capability check whose [result_code] and outer
    [check_result] are ["1"] and whose first device result carries
    [check_result] [v]. *)
Definition device_check_result (data : json) (v : json) : Prop :=
  ∃ d r e rest,
    data = JDict d ∧
    dict_get "result_code" d = Some (JStr "1") ∧
    dict_get "result_data" d = Some (JDict r) ∧
    dict_get "check_result" r = Some (JStr "1") ∧
    dict_get "dev_result_list" r = Some (JList (JDict e :: rest)) ∧
    dict_get "check_result" e = Some v.

(** A transport that answers every request with the body [body]. *)
Definition answering (body : json) (r : request) : result response :=
  Ok {| raise_for_status := Ok (); resp_json := Ok body |}.

(** A body of the shape the vendor documents. *)
Definition realtime_body (points plants : list json) : json :=
  JDict [("result_data", JDict [("point_dict", JList points);
                                ("device_point_list", JList plants)])].

(** The catalog of the sample responses. *)
Definition sample_points : list json :=
  [JDict [("point_id", JInt 83022); ("point_unit", JStr "Wh");
          ("point_name", JStr "Daily Yield")]].

(** Two plants; ["P2"] has no field [p83022]. *)
Definition two_plant_body : json :=
  realtime_body sample_points
    [JDict [("ps_id", JStr "P1"); ("p83022", JStr "123.4")];
     JDict [("ps_id", JStr "P2")]].

(** Two plants; ["P2"] has the field [p83022] with the value [null]. *)
Definition two_plant_null_body : json :=
  realtime_body sample_points
    [JDict [("ps_id", JStr "P1"); ("p83022", JStr "123.4")];
     JDict [("ps_id", JStr "P2"); ("p83022", JNull)]].

(** What lines 74-79 need of a body: each entry of the catalog is an
    object with a [point_id]; each plant record is an object with a
    [ps_id] whose keys are not empty and whose point fields hold values
    that line 85 accepts. *)
Definition well_formed_point (point : json) : Prop :=
  ∃ d, point = JDict d ∧ is_Some (dict_get "point_id" d).

Definition well_formed_field `{Builtins} (kv : string * json) : Prop :=
  kv.1 ≠ "" ∧
  (Plants.is_point_field kv.1 = Ok true → is_Ok (Plants.coerce kv.2) = true).

Definition well_formed_record `{Builtins} (plant : json) : Prop :=
  ∃ fields, plant = JDict fields ∧ is_Some (dict_get "ps_id" fields) ∧
            Forall well_formed_field fields.

(** The reading of [p83022="123.4"] under the sample catalog, and the
    result for [two_plant_body]. *)
Definition sample_reading : Plants.Reading := {|
  Plants.reading_id := "83022";
  Plants.reading_code := "daily_yield";
  Plants.reading_value := JFloat 0x1.ed9999999999ap+6;
  Plants.reading_unit := JStr "Wh";
  Plants.reading_name := JStr "Daily Yield";
|}.

Definition sample_result : gmap string (gmap string Plants.Reading) :=
  <["P2" := ∅]> (<["P1" := {["daily_yield" := sample_reading]}]> ∅).

(** A transport that raises [e] on every request. *)
Definition failing (e : exn) (r : request) : result response := Raise e.

(** A transport that answers every request with the body [body] under a
    status that [raise_for_status] reports as [status]. *)
Definition answering_with_status (status : result ()) (body : json) (r : request)
  : result response :=
  Ok {| raise_for_status := status; resp_json := Ok body |}.

(** A body of [queryPowerStationList] with the page [plants]. *)
Definition plants_body (plants : list json) : json :=
  JDict [("result_code", JStr "1");
         ("result_data", JDict [("pageList", JList plants); ("rowCount", JInt 2)])].

(** A body of [getPowerStationDetail] with the value [v] as [data_list]. *)
Definition details_body (v : json) : json :=
  JDict [("result_code", JStr "1"); ("result_data", JDict [("data_list", v)])].

(** A body with the vendor's error indicator. *)
Definition error_body : json :=
  JDict [("error", JStr "invalid_token"); ("error_description", JStr "expired")].

(** A capability-check body with device-level [check_result] [v]. *)
Definition check_body (v : json) : json :=
  JDict [("result_code", JStr "1");
         ("result_data", JDict [
            ("check_result", JStr "1");
            ("dev_result_list", JList [JDict [("check_result", v)]])])].

(** * Properties *)

(** ** Running programs *)

Lemma run_lift {A} (transport : request -> result response) (m : result A) :
  run transport (lift m) = ([], m).
Proof. by destruct m. Qed.

Lemma comprehension_lookup {A B} (f : A -> result B) l ys i x :
  comprehension f l = Ok ys → l !! i = Some x →
  ∃ y, f x = Ok y ∧ ys !! i = Some y.
Proof.
  revert ys i. induction l as [|a l IH]; intros ys i; [done|].
  simpl. destruct (f a) as [b|] eqn:Hb; [|done]. simpl.
  destruct (comprehension f l) as [bs|] eqn:Hbs; [|done]. simpl.
  intros [= <-]. destruct i as [|i]; simpl.
  - intros [= <-]. eauto.
  - intros Hi. by apply IH.
Qed.

Lemma comprehension_Raise {A B} (f : A -> result B) l e :
  comprehension f l = Raise e → ∃ x, x ∈ l ∧ f x = Raise e.
Proof.
  induction l as [|a l IH]; [done|]. simpl.
  destruct (f a) as [b|e'] eqn:Hb; simpl.
  - destruct (comprehension f l) as [bs|e'] eqn:Hbs; [done|]. simpl.
    intros [= ->]. destruct IH as (x & Hx & Hfx); [done|].
    exists x. split; [by right | done].
  - intros [= ->]. exists a. split; [by left | done].
Qed.

Section Realtime.
Context `{Builtins}.
Import Plants.

(** The run of [async_get_realtime_data], whatever the transport. *)
Lemma run_realtime transport self plant_id mp :
  run transport (async_get_realtime_data self plant_id mp) =
  match point_ids mp with
  | Raise e => ([], Raise e)
  | Ok ms =>
      let r := realtime_request self (ps_list plant_id) ms in
      ([r],
       resp ← transport r;
       res ← resp_json resp;
       err ← py_in "error" res;
       if err : bool then Raise (PySolarCloudException res) else reshape res)
  end.
Proof.
  unfold async_get_realtime_data.
  destruct (point_ids mp) as [ms|e]; simpl; [|done].
  destruct (transport _) as [resp|e]; simpl; [|done].
  destruct (resp_json resp) as [res|e]; simpl; [|done].
  destruct (py_in "error" res) as [[]|e]; simpl; [done| |done].
  by rewrite run_lift.
Qed.
End Realtime.

(** ** The registry *)

Section Registry.
Import Plants.

Lemma dict_get_Some_elem {A} (d : list (string * A)) k v :
  dict_get k d = Some v → (k, v) ∈ d.
Proof.
  induction d as [|[k' v'] d IH]; [done|]. simpl.
  destruct (String.eqb_spec k' k) as [->|Hk].
  - intros [= <-]. by left.
  - intros Hd. right. by apply IH.
Qed.

Lemma dict_get_None {A} (d : list (string * A)) k :
  dict_get k d = None ↔ k ∉ d.*1.
Proof.
  induction d as [|[k' v'] d IH]; simpl.
  - split; [intros _; apply not_elem_of_nil | done].
  - rewrite not_elem_of_cons. destruct (String.eqb_spec k' k) as [->|Hk].
    + split; [done | by intros [Hne _]].
    + rewrite IH. split; [intros ?; split; [by apply not_eq_sym|done] | by intros [_ ?]].
Qed.

(** The comprehension that inverts a dict knows exactly the values of
    the dict. *)
Lemma inverted_lookup_None (l : list (string * string)) (acc : gmap string string) n :
  foldl (fun acc kv => <[kv.2 := kv.1]> acc) acc l !! n = None ↔
  acc !! n = None ∧ n ∉ l.*2.
Proof.
  revert acc. induction l as [|[k v] l IH]; intros acc; simpl.
  - split; [intros ?; split; [done | apply not_elem_of_nil] | by intros [? _]].
  - rewrite IH, not_elem_of_cons, lookup_insert_None. simpl.
    split; [intros [[? ?] ?] | intros [? [? ?]]]; repeat split; try done.
    all: by apply not_eq_sym.
Qed.

Lemma dict_get_elem_NoDup {A} (d : list (string * A)) k v :
  NoDup d.*1 → (k, v) ∈ d → dict_get k d = Some v.
Proof.
  induction d as [|[k' v'] d IH]; simpl; [by intros _ ?%elem_of_nil|].
  intros [Hk' Hd]%NoDup_cons [[= -> ->]|Hin]%elem_of_cons.
  - by rewrite String.eqb_refl.
  - destruct (String.eqb_spec k' k) as [->|_]; [|by apply IH].
    exfalso. apply Hk'. apply list_elem_of_fmap. by exists (k, v).
Qed.

Lemma measure_points_ids_NoDup : NoDup measure_points.*1.
Proof. apply (bool_decide_unpack _). by vm_compute. Qed.

Lemma measure_points_names_NoDup : NoDup measure_points.*2.
Proof. apply (bool_decide_unpack _). by vm_compute. Qed.

Lemma registered_id_elem i : registered_id i ↔ i ∈ measure_points.*1.
Proof.
  unfold registered_id. rewrite <- not_eq_None_Some, dict_get_None.
  destruct (decide (i ∈ measure_points.*1)); tauto.
Qed.

Lemma registered_name_elem n : registered_name n ↔ n ∈ measure_points.*2.
Proof.
  unfold registered_name. rewrite list_elem_of_fmap. split.
  - intros [i Hi%dict_get_Some_elem]. by exists (i, n).
  - intros [[i n'] [-> Hin]]. exists i.
    by apply dict_get_elem_NoDup; [apply measure_points_ids_NoDup|].
Qed.

Lemma measure_points_map_None n :
  measure_points_map !! n = None ↔ ¬ registered_name n.
Proof.
  unfold measure_points_map.
  rewrite registered_name_elem, inverted_lookup_None, lookup_empty. tauto.
Qed.

(** No name of the registry is made of digits only. *)
Lemma registered_name_not_digits n : registered_name n → isdigit n = false.
Proof.
  rewrite registered_name_elem. revert n. apply Forall_forall.
  apply (bool_decide_unpack _). by vm_compute.
Qed.


End Registry.

(** ** The request of [async_get_realtime_data] *)

Section RealtimeRequest.
Context `{Builtins}.
Import Plants.

Lemma resolve_Raise m e :
  resolve m = Raise e →
  isdigit m = false ∧ ¬ registered_name m ∧ e = KeyError (JStr m).
Proof.
  unfold resolve. destruct (isdigit m); [done|].
  destruct (measure_points_map !! m) as [i|] eqn:Hm; [done|].
  intros [= <-]. apply measure_points_map_None in Hm.
  split; [reflexivity|]. split; [exact Hm | reflexivity].
Qed.

Lemma resolve_unknown m :
  isdigit m = false → ¬ registered_name m → resolve m = Raise (KeyError (JStr m)).
Proof.
  intros Hd Hn%measure_points_map_None. unfold resolve. by rewrite Hd, Hn.
Qed.

(** C1. A call with a list of names, one of which is neither made of
    digits only nor a name of the registry, raises [KeyError] for such
    a name (the failure the specification calls UnknownMeasurePoint),
    and the run has issued no request to the transport. *)
Theorem unknown_name_fails_before_request transport self plant_id l m :
  m ∈ l → isdigit m = false → ¬ registered_name m →
  ∃ m', m' ∈ l ∧ isdigit m' = false ∧ ¬ registered_name m' ∧
    run transport (async_get_realtime_data self plant_id (Some l)) =
      ([], Raise (KeyError (JStr m'))).
Proof.
  intros Hin Hd Hn. rewrite run_realtime. simpl.
  destruct (comprehension resolve l) as [ms|e] eqn:Hl.
  - apply list_elem_of_lookup in Hin as [i Hi].
    destruct (comprehension_lookup _ _ _ _ _ Hl Hi) as (y & Hy & _).
    by rewrite resolve_unknown in Hy.
  - apply comprehension_Raise in Hl as (m' & Hm' & He).
    apply resolve_Raise in He as (? & ? & ->). by exists m'.
Qed.

(** C2. When the decoded body of the response has the error indicator
    (["error" in res]), the call raises [PySolarCloudException] (the
    RemoteServiceError of the specification) carrying that body, and so
    returns no result. *)
Theorem error_indicator_raises transport self plant_id mp ms resp res :
  point_ids mp = Ok ms →
  transport (realtime_request self (ps_list plant_id) ms) = Ok resp →
  resp_json resp = Ok res →
  py_in "error" res = Ok true →
  run transport (async_get_realtime_data self plant_id mp) =
    ([realtime_request self (ps_list plant_id) ms],
     Raise (PySolarCloudException res)).
Proof.
  intros Hms Hresp Hres Herr. rewrite run_realtime, Hms. simpl.
  by rewrite Hresp; simpl; rewrite Hres; simpl; rewrite Herr.
Qed.

(** C7. With [measure_points=None] the one request carries as
    [point_id_list] a list without repetition whose members are exactly
    the registered numeric ids. *)
Theorem default_requests_every_registered_id transport self plant_id :
  ∃ r ms,
    (run transport (async_get_realtime_data self plant_id None)).1 = [r] ∧
    dict_get "point_id_list" (req_params r) = Some (JList (JStr <$> ms)) ∧
    NoDup ms ∧
    ∀ i, i ∈ ms ↔ registered_id i.
Proof.
  rewrite run_realtime. simpl.
  eexists _, _. split; [done|]. split; [done|].
  split; [apply measure_points_ids_NoDup|].
  intros i. by rewrite registered_id_elem.
Qed.

(** C8, amended. A call whose names all resolve (no list, or a list of
    names each made of digits only or registered) issues exactly one
    request, with [ps_id_list] the plant ids in the order given (a
    single id as a list of one), [point_id_list] the resolved ids and
    [is_get_point_dict] the string ["1"]. *)
Theorem one_request_when_names_resolve transport self plant_id mp ms :
  point_ids mp = Ok ms →
  ∃ r,
    (run transport (async_get_realtime_data self plant_id mp)).1 = [r] ∧
    dict_get "ps_id_list" (req_params r) =
      Some (JList (JStr <$> match plant_id with One p => [p] | Many l => l end)) ∧
    dict_get "point_id_list" (req_params r) = Some (JList (JStr <$> ms)) ∧
    dict_get "is_get_point_dict" (req_params r) = Some (JStr "1").
Proof.
  intros Hms. rewrite run_realtime, Hms. simpl.
  eexists. split; [done|]. by destruct plant_id.
Qed.
End RealtimeRequest.

(** ** Readings *)

Section Readings.
Context `{Builtins}.
Import Plants.

Lemma coerce_str s :
  coerce (JStr s) = Ok (match float_of_str s with Some f => JFloat f | None => JStr s end).
Proof. unfold coerce, py_float. by destruct (float_of_str s). Qed.

Lemma format_Ok point_id point_value point_dict d :
  _format_measure_point point_id point_value point_dict = Ok d →
  reading_id d = point_id ∧ reading_code d = code_of point_id.
Proof.
  unfold _format_measure_point. destruct (coerce point_value); simpl; [|done].
  by intros [= <-].
Qed.

(** C4. The value of a reading: a raw string that [float] accepts gives
    that float, a raw string that [float] rejects is kept as it is, and
    a raw [None] gives [None]. *)
Theorem value_coercion point_id point_dict :
  (∀ s, reading_value <$> _format_measure_point point_id (JStr s) point_dict =
        Ok (match float_of_str s with Some f => JFloat f | None => JStr s end)) ∧
  reading_value <$> _format_measure_point point_id JNull point_dict = Ok JNull.
Proof.
  split; [|done]. intros s. unfold _format_measure_point.
  rewrite coerce_str. by destruct (float_of_str s).
Qed.

(** C10. When the catalog has no entry for the id, a reading that is
    produced has unit [None] and name [None]; the call fails only where
    it fails with an entry present too (on the raw value); and for a raw
    string or [None] it succeeds. *)
Theorem missing_catalog_entry point_id point_value point_dict :
  point_dict !! point_id = None →
  (∀ r, _format_measure_point point_id point_value point_dict = Ok r →
        reading_unit r = JNull ∧ reading_name r = JNull) ∧
  (∀ entry,
     is_Ok (_format_measure_point point_id point_value point_dict) =
     is_Ok (_format_measure_point point_id point_value (<[point_id := entry]> point_dict))) ∧
  (point_value = JNull ∨ (∃ s, point_value = JStr s) →
   is_Ok (_format_measure_point point_id point_value point_dict) = true).
Proof.
  intros Hnone. unfold _format_measure_point. rewrite Hnone. split; [|split].
  - intros r. destruct (coerce point_value); simpl; [|done]. by intros [= <-].
  - intros entry. by destruct (coerce point_value).
  - intros [->|[s ->]]; [done|]. by rewrite coerce_str.
Qed.
End Readings.

(** ** The readings of one plant record *)

Section PlantData.
Context `{Builtins}.
Import Plants.

(** [dict_of] has a key exactly when a pair has it, and holds under it
    the value of one of those pairs. *)
Lemma foldl_insert_lookup {A} (l : list (string * A)) (acc : gmap string A) k v :
  foldl (fun acc kv => <[kv.1 := kv.2]> acc) acc l !! k = Some v →
  (k, v) ∈ l ∨ acc !! k = Some v.
Proof.
  revert acc. induction l as [|[k' v'] l IH]; intros acc; simpl; [by right|].
  intros [Hin|Hacc]%IH; [left; by right|].
  apply lookup_insert_Some in Hacc as [[<- <-]|[_ Hacc]]; [left; by left | by right].
Qed.

Lemma foldl_insert_is_Some {A} (l : list (string * A)) (acc : gmap string A) k :
  k ∈ l.*1 ∨ is_Some (acc !! k) →
  is_Some (foldl (fun acc kv => <[kv.1 := kv.2]> acc) acc l !! k).
Proof.
  revert acc. induction l as [|[k' v'] l IH]; intros acc; simpl.
  - by intros [?%elem_of_nil|?].
  - intros [[->|Hin]%elem_of_cons|Hacc]; apply IH.
    + right. rewrite lookup_insert_eq. by eexists.
    + by left.
    + right. rewrite lookup_insert_is_Some. destruct (decide (k' = k)); auto.
Qed.

Lemma data_as_dict_Some data c r :
  data_as_dict data !! c = Some r → r ∈ data ∧ reading_code r = c.
Proof.
  unfold data_as_dict, dict_of.
  intros [Hin|Hempty]%foldl_insert_lookup; [|by rewrite lookup_empty in Hempty].
  apply list_elem_of_fmap in Hin as (d & [= -> ->] & Hd). done.
Qed.

Lemma data_as_dict_is_Some data d :
  d ∈ data → is_Some (data_as_dict data !! reading_code d).
Proof.
  intros Hd. apply foldl_insert_is_Some. left.
  rewrite <- list_fmap_compose. apply list_elem_of_fmap. by exists d.
Qed.

Lemma is_point_field_true k :
  is_point_field k = Ok true → isdigit (tail k) = true.
Proof.
  destruct k as [|c k]; [done|]. simpl.
  intros [= [_ ?]%andb_prop]. done.
Qed.

(** Every reading of a plant record comes from one of its point
    fields... *)
Lemma plant_data_elem fields point_dict data d :
  plant_data fields point_dict = Ok data → d ∈ data →
  ∃ k v, (k, v) ∈ fields ∧ is_point_field k = Ok true ∧
         _format_measure_point (tail k) v point_dict = Ok d.
Proof.
  revert data. induction fields as [|[k v] fields IH]; intros data; simpl.
  - by intros [= <-] ?%elem_of_nil.
  - destruct (is_point_field k) as [[]|] eqn:Hk; simpl; [| |done].
    + destruct (_format_measure_point (tail k) v point_dict) as [d'|] eqn:Hd';
        simpl; [|done].
      destruct (plant_data fields point_dict) as [ds|] eqn:Hds; simpl; [|done].
      intros [= <-] [->|Hin]%elem_of_cons.
      * exists k, v. split; [by left | done].
      * destruct (IH ds eq_refl Hin) as (k' & v' & ? & ? & ?).
        exists k', v'. split; [by right | done].
    + intros Hdata Hin. destruct (IH data Hdata Hin) as (k' & v' & ? & ? & ?).
      exists k', v'. split; [by right | done].
Qed.

(** ... and every point field gives a reading. *)
Lemma plant_data_field fields point_dict data k v :
  plant_data fields point_dict = Ok data → (k, v) ∈ fields →
  is_point_field k = Ok true →
  ∃ d, d ∈ data ∧ _format_measure_point (tail k) v point_dict = Ok d.
Proof.
  revert data. induction fields as [|[k' v'] fields IH]; intros data; simpl.
  - by intros _ ?%elem_of_nil.
  - intros Hdata [[= <- <-]|Hin]%elem_of_cons Hk.
    + rewrite Hk in Hdata. simpl in Hdata.
      destruct (_format_measure_point (tail k) v point_dict) as [d|]; [|done].
      simpl in Hdata. destruct (plant_data fields point_dict); [|done].
      injection Hdata as <-. exists d. split; [by left | done].
    + destruct (is_point_field k') as [[]|]; simpl in Hdata; [| |done].
      * destruct (_format_measure_point (tail k') v' point_dict) as [d'|]; [|done].
        simpl in Hdata.
        destruct (plant_data fields point_dict) as [ds|] eqn:Hds; [|done].
        injection Hdata as <-.
        destruct (IH ds eq_refl Hin Hk) as (d & ? & ?).
        exists d. split; [by right | done].
      * by apply IH.
Qed.

(** The reshaping of a record succeeds when its keys are not empty and
    its point fields hold strings or [None]. *)
Lemma plant_data_plain fields point_dict :
  Forall (fun kv => kv.1 ≠ "" ∧ (kv.2 = JNull ∨ ∃ s, kv.2 = JStr s)) fields →
  is_Ok (plant_data fields point_dict) = true.
Proof.
  induction 1 as [|[k v] fields [Hk Hv] _ IH]; [done|]. simpl in *.
  destruct k as [|c k]; [done|]. simpl.
  destruct (bool_decide (c = "p"%char) && isdigit k); [|done].
  unfold _format_measure_point.
  destruct Hv as [->|[s ->]]; [|rewrite coerce_str]; simpl;
    by destruct (plant_data fields point_dict).
Qed.

(** Every inner map of a result is the [data_as_dict] of the readings of
    a plant record. *)
Lemma for_plants_inner l point_dict acc plants ps inner :
  for_plants l point_dict acc = Ok plants → plants !! ps = Some inner →
  acc !! ps = Some inner ∨
  ∃ fields data, JDict fields ∈ l ∧ plant_data fields point_dict = Ok data ∧
                 inner = data_as_dict data.
Proof.
  revert acc. induction l as [|plant l IH]; intros acc; simpl.
  - intros [= <-] Hps. by left.
  - destruct plant as [| | | | | |fields]; simpl; try done.
    destruct (plant_data fields point_dict) as [data|] eqn:Hdata; simpl; [|done].
    destruct (dict_get "ps_id" fields) as [ps_id|]; simpl; [|done].
    intros Hl Hps. destruct (IH _ Hl Hps) as [Hacc|(fields' & data' & Hin & ? & ?)].
    + apply lookup_insert_Some in Hacc as [[_ <-]|[_ Hacc]]; [|by left].
      right. exists fields, data. split; [by left | done].
    + right. exists fields', data'. split; [by right | done].
Qed.

Lemma reshape_inner res plants ps inner :
  reshape res = Ok plants → plants !! ps = Some inner →
  ∃ fields point_dict data,
    plant_data fields point_dict = Ok data ∧ inner = data_as_dict data.
Proof.
  unfold reshape.
  destruct (getitem res "result_data") as [result_data|]; simpl; [|done].
  destruct (getitem result_data "point_dict") as [points|]; simpl; [|done].
  destruct (iter points) as [points'|]; simpl; [|done].
  destruct (comprehension point_entry points') as [entries|]; simpl; [|done].
  destruct (getitem result_data "device_point_list") as [l|]; simpl; [|done].
  destruct (iter l) as [l'|]; simpl; [|done].
  intros Hl Hps.
  destruct (for_plants_inner _ _ _ _ _ _ Hl Hps) as [Hempty|(fields & data & _ & ? & ?)].
  - by rewrite lookup_empty in Hempty.
  - by exists fields, (dict_of entries), data.
Qed.

Lemma run_realtime_Ok transport self plant_id mp plants :
  (run transport (async_get_realtime_data self plant_id mp)).2 = Ok plants →
  ∃ res, reshape res = Ok plants.
Proof.
  rewrite run_realtime. destruct (point_ids mp) as [ms|]; simpl; [|done].
  destruct (transport _) as [resp|]; simpl; [|done].
  destruct (resp_json resp) as [res|]; simpl; [|done].
  destruct (py_in "error" res) as [[]|]; simpl; [done| |done]. eauto.
Qed.


End PlantData.

(** ** The two-plant response *)

Section TwoPlants.
Context `{Builtins}.
Import Plants.

Lemma for_plants_cons fields l point_dict plants data ps_id :
  plant_data fields point_dict = Ok data →
  dict_get "ps_id" fields = Some ps_id →
  for_plants (JDict fields :: l) point_dict plants =
    for_plants l point_dict (<[py_str ps_id := data_as_dict data]> plants).
Proof. intros Hdata Hid. simpl. rewrite Hdata. simpl. by rewrite Hid. Qed.

Lemma reshape_realtime_body points plants :
  reshape (realtime_body points plants) =
    (entries ← comprehension point_entry points;
     for_plants plants (dict_of entries) ∅).
Proof.
  unfold reshape, realtime_body. simpl.
  by destruct (comprehension point_entry points).
Qed.

Lemma reshape_two_plants points entries fields1 fields2 data1 data2 id1 id2 :
  comprehension point_entry points = Ok entries →
  plant_data fields1 (dict_of entries) = Ok data1 →
  plant_data fields2 (dict_of entries) = Ok data2 →
  dict_get "ps_id" fields1 = Some id1 →
  dict_get "ps_id" fields2 = Some id2 →
  reshape (realtime_body points [JDict fields1; JDict fields2]) =
    Ok (<[py_str id2 := data_as_dict data2]>
          (<[py_str id1 := data_as_dict data1]> ∅)).
Proof.
  intros Hentries Hdata1 Hdata2 Hid1 Hid2.
  rewrite reshape_realtime_body, Hentries. cbn [mbind result_bind].
  rewrite (for_plants_cons _ _ _ _ _ _ Hdata1 Hid1).
  by rewrite (for_plants_cons _ _ _ _ _ _ Hdata2 Hid2).
Qed.

Lemma data_as_dict_singleton r : data_as_dict [r] !! reading_code r = Some r.
Proof. unfold data_as_dict, dict_of. simpl. apply lookup_insert_eq. Qed.

Lemma sample_points_entries :
  ∃ entries, comprehension point_entry sample_points = Ok entries.
Proof. by eexists. Qed.

Lemma plant_data_with_float point_dict ps_id f :
  float_of_str "123.4" = Some f →
  ∃ r, plant_data [("ps_id", JStr ps_id); ("p83022", JStr "123.4")] point_dict = Ok [r] ∧
       reading_code r = "daily_yield" ∧ reading_value r = JFloat f.
Proof.
  intros Hf. cbn [plant_data is_point_field mbind result_bind].
  unfold _format_measure_point. rewrite coerce_str, Hf. simpl.
  eexists. split; [done|]. split; [by vm_compute | done].
Qed.

Lemma plant_data_with_null point_dict ps_id :
  ∃ r, plant_data [("ps_id", JStr ps_id); ("p83022", JNull)] point_dict = Ok [r] ∧
       reading_code r = "daily_yield" ∧ reading_value r = JNull.
Proof. eexists. split; [done|]. split; [by vm_compute | done]. Qed.

Lemma run_answering body self plant_id mp ms :
  point_ids mp = Ok ms →
  py_in "error" body = Ok false →
  (run (answering body) (async_get_realtime_data self plant_id mp)).2 = reshape body.
Proof. intros Hms Herr. rewrite run_realtime, Hms. simpl. by rewrite Herr. Qed.

(** C3, amended. [float("123.4")] being the double nearest to 123.4, a
    call answered by the two-plant response in which ["P1"] has
    [p83022="123.4"] gives ["P1"] an inner map with ["daily_yield"] of
    value 123.4.  When ["P2"] has no field [p83022], its inner map has
    no key ["daily_yield"]; when ["P2"] has the field with the value
    [null], its inner map has ["daily_yield"] with value [None]. *)
Theorem two_plant_response self plant_id mp ms :
  float_of_str "123.4" = Some 0x1.ed9999999999ap+6%float →
  point_ids mp = Ok ms →
  (∃ plants p1 p2 r1,
     (run (answering two_plant_body)
          (async_get_realtime_data self plant_id mp)).2 = Ok plants ∧
     plants !! "P1" = Some p1 ∧ p1 !! "daily_yield" = Some r1 ∧
     reading_value r1 = JFloat 0x1.ed9999999999ap+6 ∧
     plants !! "P2" = Some p2 ∧ p2 !! "daily_yield" = None) ∧
  (∃ plants p1 p2 r1 r2,
     (run (answering two_plant_null_body)
          (async_get_realtime_data self plant_id mp)).2 = Ok plants ∧
     plants !! "P1" = Some p1 ∧ p1 !! "daily_yield" = Some r1 ∧
     reading_value r1 = JFloat 0x1.ed9999999999ap+6 ∧
     plants !! "P2" = Some p2 ∧ p2 !! "daily_yield" = Some r2 ∧
     reading_value r2 = JNull).
Proof.
  intros Hf Hms. destruct sample_points_entries as [entries Hentries].
  destruct (plant_data_with_float (dict_of entries) "P1" _ Hf)
    as (r1 & Hdata1 & Hcode1 & Hvalue1).
  split.
  - rewrite (run_answering _ _ _ _ _ Hms) by done.
    unfold two_plant_body.
    rewrite (reshape_two_plants _ _ _ _ _ [] (JStr "P1") (JStr "P2")
               Hentries Hdata1) by done.
    exists (<["P2" := data_as_dict []]> (<["P1" := data_as_dict [r1]]> ∅)),
      (data_as_dict [r1]), (data_as_dict []), r1.
    split; [done|]. split; [by rewrite lookup_insert_ne, lookup_insert_eq|].
    split; [by rewrite <- Hcode1, data_as_dict_singleton|].
    split; [done|]. split; [by rewrite lookup_insert_eq|]. apply lookup_empty.
  - destruct (plant_data_with_null (dict_of entries) "P2")
      as (r2 & Hdata2 & Hcode2 & Hvalue2).
    rewrite (run_answering _ _ _ _ _ Hms) by done.
    unfold two_plant_null_body.
    rewrite (reshape_two_plants _ _ _ _ _ _ (JStr "P1") (JStr "P2")
               Hentries Hdata1 Hdata2) by done.
    exists (<["P2" := data_as_dict [r2]]> (<["P1" := data_as_dict [r1]]> ∅)),
      (data_as_dict [r1]), (data_as_dict [r2]), r1, r2.
    split; [done|]. split; [by rewrite lookup_insert_ne, lookup_insert_eq|].
    split; [by rewrite <- Hcode1, data_as_dict_singleton|].
    split; [done|]. split; [by rewrite lookup_insert_eq|].
    split; [by rewrite <- Hcode2, data_as_dict_singleton | done].
Qed.
End TwoPlants.

(** ** Names made of digits *)

Section DigitNames.
Context `{Builtins}.
Import Plants.

Lemma run_realtime_body points l self plant_id mp :
  (run (answering (realtime_body points l))
       (async_get_realtime_data self plant_id mp)).2 =
  (_ ← point_ids mp;
   entries ← comprehension point_entry points;
   for_plants l (dict_of entries) ∅).
Proof.
  rewrite run_realtime. destruct (point_ids mp) as [ms|]; [|done].
  cbn [snd mbind result_bind answering resp_json].
  change (py_in "error" (realtime_body points l)) with (Ok false (A:=bool)).
  cbn [mbind result_bind]. apply reshape_realtime_body.
Qed.




End DigitNames.

(** ** The round trip through the registry *)

Section RoundTrip.
Import Plants.

Lemma measure_points_map_code_of :
  Forall (fun n => code_of <$> measure_points_map !! n = Some n) measure_points.*2.
Proof. apply (bool_decide_unpack _). by vm_compute. Qed.

(** C5. For every registered semantic name [n], the inverted registry
    gives an id ([measure_points_map[n]], which is also what the name
    resolves to), and the registry gives that id the name [n] back. *)
Theorem registry_round_trip n :
  registered_name n →
  ∃ i, measure_points_map !! n = Some i ∧ resolve n = Ok i ∧ code_of i = n.
Proof.
  intros Hn. pose proof (registered_name_not_digits n Hn) as Hd.
  apply registered_name_elem in Hn.
  pose proof (proj1 (Forall_forall _ _) measure_points_map_code_of n Hn) as Hrt.
  apply fmap_Some in Hrt as (i & Hi & Hcode).
  exists i. split; [exact Hi|]. split; [|by symmetry].
  unfold resolve. rewrite Hd, Hi. reflexivity.
Qed.
End RoundTrip.

(** ** The capability check *)

Section CapabilityCheck.
Context `{Builtins}.
Import Control.

Lemma eq_str_true j s : eq_str j s = true ↔ j = JStr s.
Proof.
  destruct j; simpl; try (split; [done | by intros [=]]).
  rewrite bool_decide_eq_true. split; [by intros -> | by intros [= ->]].
Qed.

Lemma getitem_Ok j k v :
  getitem j k = Ok v ↔ ∃ d, j = JDict d ∧ dict_get k d = Some v.
Proof.
  split.
  - destruct j as [| | | | | |d]; simpl; try done.
    destruct (dict_get k d) as [v'|] eqn:Hk; [|done]. intros [= ->]. eauto.
  - intros (d & -> & Hk). simpl. by rewrite Hk.
Qed.

Lemma getitem0_getitem_Ok j k v :
  (x ← getitem0 j; getitem x k) = Ok v ↔
  ∃ e rest, j = JList (JDict e :: rest) ∧ dict_get k e = Some v.
Proof.
  split.
  - destruct j as [| | | |s|l|d]; simpl; try done.
    + by destruct s.
    + destruct l as [|x l]; simpl; [done|].
      intros (e & -> & Hk)%getitem_Ok. eauto.
  - intros (e & rest & -> & Hk). simpl. by rewrite Hk.
Qed.

Lemma check_passed_true data :
  check_passed data = Ok true ↔
  ∃ d r, data = JDict d ∧
         dict_get "result_code" d = Some (JStr "1") ∧
         dict_get "result_data" d = Some (JDict r) ∧
         dict_get "check_result" r = Some (JStr "1").
Proof.
  unfold check_passed. split.
  - destruct data as [| | | | | |d]; simpl; try done.
    destruct (eq_str (default JNull (dict_get "result_code" d)) "1") eqn:Hrc;
      [|done].
    apply eq_str_true in Hrc.
    destruct (dict_get "result_code" d) as [rc|] eqn:Hrc'; [|done].
    simpl in Hrc. subst rc.
    destruct (dict_get "result_data" d) as [rd|] eqn:Hrd; simpl; [|done].
    destruct (getitem rd "check_result") as [cr|] eqn:Hcr; simpl; [|done].
    apply getitem_Ok in Hcr as (r & -> & Hcr).
    intros [= ->%eq_str_true]. by exists d, r.
  - intros (d & r & -> & Hrc & Hrd & Hcr). simpl.
    rewrite Hrc. simpl. rewrite Hrd. simpl. by rewrite Hcr.
Qed.

(** The verdict on a decoded body, by the device-level [check_result]. *)
Lemma verdict_Ok device_uuid set_type data b :
  verdict device_uuid set_type data = Ok b ↔
  device_check_result data (JStr (if b then "1" else "0")).
Proof.
  unfold verdict, device_check_result. split.
  - destruct (check_passed data) as [[]|] eqn:Hpassed; simpl; [|done|done].
    apply check_passed_true in Hpassed as (d & r & -> & Hrc & Hrd & Hcr).
    simpl. rewrite Hrd. simpl.
    destruct (dict_get "dev_result_list" r) as [l|] eqn:Hl; simpl; [|done].
    destruct (getitem0 l ≫= λ x, getitem x "check_result") as [v|] eqn:Hv.
    + pose proof Hv as (e & rest & -> & He)%getitem0_getitem_Ok.
      simpl. rewrite He. simpl.
      destruct (eq_str v "1") eqn:H1; [apply eq_str_true in H1 as ->|].
      { intros [= <-]. by exists d, r, e, rest. }
      destruct (eq_str v "0") eqn:H0; [apply eq_str_true in H0 as ->|done].
      intros [= <-]. by exists d, r, e, rest.
    + destruct (getitem0 l) as [x|]; simpl in *; [|done]. by rewrite Hv.
  - intros (d & r & e & rest & -> & Hrc & Hrd & Hcr & Hl & He).
    assert (check_passed (JDict d) = Ok true) as ->.
    { apply check_passed_true. by exists d, r. }
    simpl. rewrite Hrd. simpl. rewrite Hl. simpl. rewrite He. simpl.
    by destruct b.
Qed.

Lemma verdict_other device_uuid set_type data v :
  device_check_result data v → v ≠ JStr "1" → v ≠ JStr "0" →
  verdict device_uuid set_type data = Raise (check_failed device_uuid set_type data).
Proof.
  intros (d & r & e & rest & -> & Hrc & Hrd & Hcr & Hl & He) H1 H0.
  unfold verdict.
  assert (check_passed (JDict d) = Ok true) as ->.
  { apply check_passed_true. by exists d, r. }
  simpl. rewrite Hrd. simpl. rewrite Hl. simpl. rewrite He. simpl.
  destruct (eq_str v "1") eqn:E1; [by apply eq_str_true in E1|].
  destruct (eq_str v "0") eqn:E0; [by apply eq_str_true in E0|done].
Qed.

Lemma run_verification transport device_uuid set_type :
  run transport (async_param_config_verification device_uuid set_type) =
    ([check_request device_uuid set_type],
     res ← transport (check_request device_uuid set_type);
     _ ← raise_for_status res;
     data ← resp_json res;
     verdict device_uuid set_type data).
Proof.
  unfold async_param_config_verification. simpl.
  destruct (transport _) as [res|]; simpl; [|done].
  destruct (raise_for_status res) as [[]|]; simpl; [|done].
  destruct (resp_json res) as [data|]; simpl; [|done].
  by rewrite run_lift.
Qed.

(** C9. When the transport hands over a decoded body, the capability
    check returns [True] exactly when [result_code] and the outer
    [check_result] are ["1"] and the device-level [check_result] is the
    string ["1"], returns [False] exactly when it is the string ["0"]
    instead, and for every other device-level value raises the generic
    [PySolarCloudException]. *)
Theorem capability_check_tri_state transport device_uuid set_type res data :
  transport (check_request device_uuid set_type) = Ok res →
  raise_for_status res = Ok () →
  resp_json res = Ok data →
  let out := (run transport (async_param_config_verification device_uuid set_type)).2 in
  (out = Ok true ↔ device_check_result data (JStr "1")) ∧
  (out = Ok false ↔ device_check_result data (JStr "0")) ∧
  (∀ v, device_check_result data v → v ≠ JStr "1" → v ≠ JStr "0" →
        out = Raise (check_failed device_uuid set_type data)).
Proof.
  intros Hres Hstatus Hdata out. subst out.
  rewrite run_verification. simpl. rewrite Hres. simpl.
  rewrite Hstatus. simpl. rewrite Hdata. simpl.
  split; [apply (verdict_Ok _ _ _ true)|].
  split; [apply (verdict_Ok _ _ _ false)|].
  apply verdict_other.
Qed.
End CapabilityCheck.

(** ** The properties on sample calls *)

Section Samples.
Import Plants Control.
#[local] Existing Instance sample_builtins.

Example isdigit_samples :
  isdigit "83022" = true ∧ isdigit "" = false ∧ isdigit "s_id" = false ∧
  isdigit "83a22" = false ∧ isdigit "-1" = false ∧ isdigit "1.5" = false.
Proof. by vm_compute. Qed.

Example is_point_field_samples :
  is_point_field "p83022" = Ok true ∧ is_point_field "ps_id" = Ok false ∧
  is_point_field "p" = Ok false ∧ is_point_field "x83022" = Ok false ∧
  is_point_field "" = Raise IndexError.
Proof. by vm_compute. Qed.

Example py_in_samples :
  py_in "error" error_body = Ok true ∧
  py_in "error" two_plant_body = Ok false ∧
  py_in "error" (JStr "an error occurred") = Ok true ∧
  py_in "error" (JList [JStr "error"]) = Ok true ∧
  py_in "error" (JList [JList [JStr "error"]]) = Ok false ∧
  py_in "error" JNull = Raise TypeError.
Proof. by vm_compute. Qed.

Example sample_float : float_of_str "123.4" = Some 0x1.ed9999999999ap+6%float.
Proof. by vm_compute. Qed.

Example sample_float_edges :
  float_of_str "-2.5" = Some (-2.5)%float ∧ float_of_str "+7" = Some 7%float ∧
  float_of_str ".5" = Some 0.5%float ∧ float_of_str "1." = Some 1%float ∧
  float_of_str "" = None ∧ float_of_str "." = None ∧ float_of_str "-" = None ∧
  float_of_str "N/A" = None ∧ float_of_str "1.2.3" = None ∧
  float_of_str "0.0000000000000000001" = None ∧
  float_of_int (2 ^ 53 + 1) = Some 0x1p+53%float ∧
  float_of_int (-3) = Some (-3)%float.
Proof. by vm_compute. Qed.

(** A field [p83099], of a point the registry does not know, is returned
    under the key ["83099"], without unit or name when the catalog has no
    entry for it. *)
Example digit_field_in_the_result :
  (run (answering
          (realtime_body sample_points
             [JDict [("ps_id", JInt 7); ("p83099", JStr "12"); ("p83022", JNull)]]))
       (async_get_realtime_data default_self (One "7") (Some ["83099"; "daily_yield"]))) =
  ([realtime_request default_self ["7"] ["83099"; "83022"]],
   Ok {["7" := <["daily_yield" :=
                   {| reading_id := "83022"; reading_code := "daily_yield";
                      reading_value := JNull; reading_unit := JStr "Wh";
                      reading_name := JStr "Daily Yield" |}]>
               {["83099" := {| reading_id := "83099"; reading_code := "83099";
                               reading_value := JFloat 12; reading_unit := JNull;
                               reading_name := JNull |}]}]}).
Proof. vm_compute. reflexivity. Qed.

Example check_failed_sample :
  check_failed "dev-1" 2 (JDict [("result_code", JStr "0"); ("n", JList [JInt 1; JNull])]) =
  PySolarCloudException
    (JStr "Could not check support for device dev-1 set_type 2: {'result_code': '0', 'n': [1, None]}").
Proof. by vm_compute. Qed.

Example capability_check_samples :
  run (answering (check_body (JStr "1"))) (async_check_read_support "dev-1") =
    ([check_request "dev-1" 2], Ok true) ∧
  run (answering (check_body (JStr "0"))) (async_check_update_support "dev-1") =
    ([check_request "dev-1" 0], Ok false) ∧
  (run (answering (check_body (JInt 1))) (async_check_read_support "dev-1")).2 =
    Raise (check_failed "dev-1" 2 (check_body (JInt 1))) ∧
  (run (answering (JDict [("result_code", JStr "1")])) (async_check_read_support "dev-1")).2 =
    Raise (KeyError (JStr "result_data")).
Proof. by vm_compute. Qed.

Lemma bogus_metric_unregistered : ¬ registered_name "bogus_metric".
Proof.
  intros Hn%registered_name_elem. revert Hn.
  apply (bool_decide_unpack _). by vm_compute.
Defined.


(** C1 on the call [(["P1"], ["daily_yield", "bogus_metric"])]. *)
Lemma unknown_name_fails_before_request_sample :
  ∃ m', m' ∈ ["daily_yield"; "bogus_metric"] ∧ isdigit m' = false ∧
    ¬ registered_name m' ∧
    run (answering two_plant_body)
        (async_get_realtime_data default_self (One "P1")
           (Some ["daily_yield"; "bogus_metric"])) =
      ([], Raise (KeyError (JStr m'))).
Proof.
  apply (unknown_name_fails_before_request (answering two_plant_body)
           default_self (One "P1") _ "bogus_metric").
  - right. left.
  - reflexivity.
  - exact bogus_metric_unregistered.
Defined.

(** C2 on a response with the key ["error"]. *)
Lemma error_indicator_raises_sample :
  run (answering error_body)
      (async_get_realtime_data default_self (One "P1") (Some ["power"; "83099"])) =
    ([realtime_request default_self ["P1"] ["83033"; "83099"]],
     Raise (PySolarCloudException error_body)).
Proof.
  apply (error_indicator_raises (answering error_body) default_self (One "P1")
           (Some ["power"; "83099"]) ["83033"; "83099"]
           {| raise_for_status := Ok (); resp_json := Ok error_body |} error_body).
  - by vm_compute.
  - reflexivity.
  - reflexivity.
  - reflexivity.
Defined.
(** C3 as first stated fails: in the result for the response in which
    ["P2"] has no field [p83022], the inner map of ["P2"] has no key
    ["daily_yield"]. *)
Lemma absent_field_gives_no_reading :
  ∃ plants p2,
    (run (answering two_plant_body)
         (async_get_realtime_data default_self (Many ["P1"; "P2"])
            (Some ["daily_yield"]))).2 = Ok plants ∧
    plants !! "P2" = Some p2 ∧ p2 !! "daily_yield" = None.
Proof.
  exists (<["P2" := ∅]>
            (<["P1" := {["daily_yield" :=
                 {| reading_id := "83022"; reading_code := "daily_yield";
                    reading_value := JFloat 0x1.ed9999999999ap+6;
                    reading_unit := JStr "Wh";
                    reading_name := JStr "Daily Yield" |}]}]> ∅)), ∅.
  split; [vm_compute; reflexivity|].
  split; [by rewrite lookup_insert_eq | apply lookup_empty].
Qed.

(** C3, amended, on the call [(["P1", "P2"], ["daily_yield"])]. *)
Lemma two_plant_response_sample :
  (∃ plants p1 p2 r1,
     (run (answering two_plant_body)
          (async_get_realtime_data default_self (Many ["P1"; "P2"])
             (Some ["daily_yield"]))).2 = Ok plants ∧
     plants !! "P1" = Some p1 ∧ p1 !! "daily_yield" = Some r1 ∧
     reading_value r1 = JFloat 0x1.ed9999999999ap+6 ∧
     plants !! "P2" = Some p2 ∧ p2 !! "daily_yield" = None) ∧
  (∃ plants p1 p2 r1 r2,
     (run (answering two_plant_null_body)
          (async_get_realtime_data default_self (Many ["P1"; "P2"])
             (Some ["daily_yield"]))).2 = Ok plants ∧
     plants !! "P1" = Some p1 ∧ p1 !! "daily_yield" = Some r1 ∧
     reading_value r1 = JFloat 0x1.ed9999999999ap+6 ∧
     plants !! "P2" = Some p2 ∧ p2 !! "daily_yield" = Some r2 ∧
     reading_value r2 = JNull).
Proof.
  apply (two_plant_response default_self (Many ["P1"; "P2"])
           (Some ["daily_yield"]) ["83022"]).
  - by vm_compute.
  - by vm_compute.
Defined.

(** C5 on ["daily_yield"]. *)
Lemma registry_round_trip_sample :
  ∃ i, measure_points_map !! "daily_yield" = Some i ∧
       resolve "daily_yield" = Ok i ∧ code_of i = "daily_yield".
Proof.
  apply (registry_round_trip "daily_yield"). by exists "83022".
Defined.


(** C8 as first stated fails: a call with an unknown name issues no
    request at all. *)
Lemma unknown_name_issues_no_request :
  (run (answering two_plant_body)
       (async_get_realtime_data default_self (One "P1")
          (Some ["bogus_metric"]))).1 = [].
Proof. by vm_compute. Qed.

(** C8, amended, on the call [("P1", ["daily_yield", "83099"])]. *)
Lemma one_request_when_names_resolve_sample :
  ∃ r,
    (run (answering two_plant_body)
         (async_get_realtime_data default_self (One "P1")
            (Some ["daily_yield"; "83099"]))).1 = [r] ∧
    dict_get "ps_id_list" (req_params r) = Some (JList [JStr "P1"]) ∧
    dict_get "point_id_list" (req_params r) =
      Some (JList [JStr "83022"; JStr "83099"]) ∧
    dict_get "is_get_point_dict" (req_params r) = Some (JStr "1").
Proof.
  apply (one_request_when_names_resolve (answering two_plant_body) default_self
           (One "P1") (Some ["daily_yield"; "83099"]) ["83022"; "83099"]).
  by vm_compute.
Defined.

(** C9 on a body whose device-level [check_result] is ["2"]. *)
Lemma capability_check_tri_state_sample :
  let out :=
    (run (answering (check_body (JStr "2")))
         (async_param_config_verification "dev-1" 2)).2 in
  (out = Ok true ↔ device_check_result (check_body (JStr "2")) (JStr "1")) ∧
  (out = Ok false ↔ device_check_result (check_body (JStr "2")) (JStr "0")) ∧
  (∀ v, device_check_result (check_body (JStr "2")) v →
        v ≠ JStr "1" → v ≠ JStr "0" →
        out = Raise (check_failed "dev-1" 2 (check_body (JStr "2")))).
Proof.
  apply (capability_check_tri_state (answering (check_body (JStr "2"))) "dev-1" 2
           {| raise_for_status := Ok (); resp_json := Ok (check_body (JStr "2")) |}).
  - reflexivity.
  - reflexivity.
  - reflexivity.
Defined.

(** C10 on an id the catalog does not have. *)
Lemma missing_catalog_entry_sample :
  (∀ r, _format_measure_point "83099" (JStr "N/A") ∅ = Ok r →
        reading_unit r = JNull ∧ reading_name r = JNull) ∧
  (∀ entry,
     is_Ok (_format_measure_point "83099" (JStr "N/A") ∅) =
     is_Ok (_format_measure_point "83099" (JStr "N/A") (<["83099" := entry]> ∅))) ∧
  (JStr "N/A" = JNull ∨ (∃ s, JStr "N/A" = JStr s) →
   is_Ok (_format_measure_point "83099" (JStr "N/A") ∅) = true).
Proof.
  apply (missing_catalog_entry "83099" (JStr "N/A") ∅). apply lookup_empty.
Defined.
End Samples.

(** * Further properties of the code *)

(** ** Resolution of the requested names *)

Section Resolution.
Import Plants.

Lemma comprehension_Forall2 {A B} (f : A -> result B) l ys :
  comprehension f l = Ok ys ↔ Forall2 (fun x y => f x = Ok y) l ys.
Proof.
  revert ys. induction l as [|a l IH]; intros ys; simpl.
  - split; [intros [= <-]; constructor | by intros ->%Forall2_nil_inv_l].
  - split.
    + destruct (f a) as [b|] eqn:Hb; simpl; [|done].
      destruct (comprehension f l) as [bs|] eqn:Hbs; simpl; [|done].
      intros [= <-]. constructor; [done|]. by apply IH.
    + intros (b & bs & Hb & Hbs & ->)%Forall2_cons_inv_l.
      apply IH in Hbs. by rewrite Hb; simpl; rewrite Hbs.
Qed.

Lemma comprehension_is_Ok {A B} (f : A -> result B) l :
  is_Ok (comprehension f l) = true ↔ Forall (fun x => is_Ok (f x) = true) l.
Proof.
  induction l as [|a l IH]; simpl; [by split; [constructor|]|].
  rewrite Forall_cons, <- IH.
  destruct (f a); simpl; [|by split; [|intros []]].
  destruct (comprehension f l); simpl; by split; [|intros []].
Qed.

Lemma measure_points_map_inverts :
  Forall (fun kv => measure_points_map !! kv.2 = Some kv.1) measure_points.
Proof. apply (bool_decide_unpack _). by vm_compute. Qed.

Lemma resolve_is_Ok m :
  is_Ok (resolve m) = true ↔ isdigit m = true ∨ registered_name m.
Proof.
  unfold resolve. destruct (isdigit m); [by split; [left|]|].
  pose proof (measure_points_map_None m) as Hnone.
  rewrite registered_name_elem in Hnone. rewrite registered_name_elem.
  revert Hnone. generalize (measure_points_map !! m).
  intros [i|] Hnone; simpl.
  - split; [intros _; right | reflexivity].
    destruct (decide (m ∈ measure_points.*2)) as [Hin|Hnin]; [exact Hin|].
    apply Hnone in Hnin. discriminate Hnin.
  - split; [intros [=]|]. intros [[=]|Hin].
    exfalso. exact (proj1 Hnone eq_refl Hin).
Qed.

Lemma inverted_lookup_Some (l : list (string * string)) (acc : gmap string string) n i :
  foldl (fun acc kv => <[kv.2 := kv.1]> acc) acc l !! n = Some i →
  (i, n) ∈ l ∨ acc !! n = Some i.
Proof.
  revert acc. induction l as [|[k v] l IH]; intros acc; simpl; [by right|].
  intros [Hin|Hacc]%IH; [left; by right|].
  apply lookup_insert_Some in Hacc as [[<- <-]|[_ Hacc]]; [left; by left | by right].
Qed.

(** What a name resolves to, read off the registry: a name made of
    digits only to itself, any other name to the id that the registry
    gives that name. *)
Lemma resolve_Ok m i :
  resolve m = Ok i ↔
  if isdigit m then i = m else dict_get i measure_points = Some m.
Proof.
  unfold resolve. destruct (isdigit m).
  - split; [by intros [= ->] | by intros ->].
  - split.
    + intros Hm.
      assert (measure_points_map !! m = Some i) as Hi.
      { revert Hm. generalize (measure_points_map !! m).
        intros [i'|]; [by intros [= ->] | by intros [=]]. }
      unfold measure_points_map in Hi.
      apply inverted_lookup_Some in Hi as [Hin|Hempty].
      * by apply dict_get_elem_NoDup; [apply measure_points_ids_NoDup|].
      * by rewrite lookup_empty in Hempty.
    + intros Hin%dict_get_Some_elem.
      pose proof (proj1 (Forall_forall _ _) measure_points_map_inverts _ Hin) as Hinv.
      simpl in Hinv. rewrite Hinv. reflexivity.
Qed.

(** X1. A list of names resolves exactly to the list, of the same length
    and in the same order, that has each name made of digits only as it
    is and, for each other name, the id that the registry gives that
    name. *)
Theorem point_ids_pointwise l ms :
  point_ids (Some l) = Ok ms ↔
  Forall2 (fun m i => if isdigit m then i = m
                      else dict_get i measure_points = Some m) l ms.
Proof.
  simpl. rewrite comprehension_Forall2.
  split; intros Hall; apply (Forall2_impl _ _ _ _ Hall); intros m i;
    apply resolve_Ok.
Qed.

(** X2. A list of names resolves (and the call reaches the transport)
    exactly when each name is made of digits only or is a registered
    name. *)
Theorem point_ids_succeed_iff l :
  is_Ok (point_ids (Some l)) = true ↔
  Forall (fun m => isdigit m = true ∨ registered_name m) l.
Proof.
  simpl. rewrite comprehension_is_Ok. apply Forall_proper; [|done].
  intros m. apply resolve_is_Ok.
Qed.

(** X3. The code under which a point is returned resolves back to the
    point: for an id [i] made of digits, registered or not,
    [code_of i] is a name that a later call resolves to [i]. *)
Theorem code_resolves_back i :
  isdigit i = true → resolve (code_of i) = Ok i.
Proof.
  intros Hd. unfold code_of.
  destruct (dict_get i measure_points) as [n|] eqn:Hi; simpl.
  - pose proof (registered_name_not_digits n (ex_intro _ i Hi)) as Hn.
    apply dict_get_Some_elem in Hi.
    pose proof (proj1 (Forall_forall _ _) measure_points_map_inverts _ Hi) as Hinv.
    simpl in Hinv. unfold resolve. rewrite Hn, Hinv. reflexivity.
  - unfold resolve. by rewrite Hd.
Qed.

(** X4. Two different ids made of digits never have the same code, so
    the readings of different points never share a key. *)
Theorem code_of_injective i j :
  isdigit i = true → isdigit j = true → code_of i = code_of j → i = j.
Proof.
  intros Hi%code_resolves_back Hj%code_resolves_back Heq.
  rewrite Heq, Hj in Hi. by injection Hi.
Qed.
End Resolution.

(** ** The transport and the body in [async_get_realtime_data] *)

Section RealtimeTransport.
Context `{Builtins}.
Import Plants.

(** X5. A failure of the transport, in the request or in decoding the
    body, reaches the caller unchanged, after the one request. *)
Theorem realtime_transport_failure_propagates transport self plant_id mp ms e :
  point_ids mp = Ok ms →
  transport (realtime_request self (ps_list plant_id) ms) = Raise e ∨
  (∃ resp, transport (realtime_request self (ps_list plant_id) ms) = Ok resp ∧
           resp_json resp = Raise e) →
  run transport (async_get_realtime_data self plant_id mp) =
    ([realtime_request self (ps_list plant_id) ms], Raise e).
Proof.
  intros Hms Hfail. rewrite run_realtime, Hms. simpl.
  destruct Hfail as [->|(resp & -> & Hjson)]; [done|]. simpl. by rewrite Hjson.
Qed.

(** X6. The status of the response is never checked: two transports whose
    responses decode alike give the same run, whatever
    [raise_for_status] would report. *)
Theorem realtime_ignores_status t1 t2 self plant_id mp :
  (∀ r, resp_json <$> t1 r = resp_json <$> t2 r) →
  run t1 (async_get_realtime_data self plant_id mp) =
  run t2 (async_get_realtime_data self plant_id mp).
Proof.
  intros Hjson. rewrite !run_realtime.
  destruct (point_ids mp) as [ms|]; [|done]. simpl.
  specialize (Hjson (realtime_request self (ps_list plant_id) ms)).
  destruct (t1 _) as [resp1|e1], (t2 _) as [resp2|e2]; simpl in *;
    try discriminate Hjson.
  - injection Hjson as ->. done.
  - by injection Hjson as ->.
Qed.


(** X8. A decoded body that is an object with neither ["error"] nor
    ["result_data"] makes the call raise [KeyError], not
    [PySolarCloudException]. *)
Theorem realtime_missing_result_data transport self plant_id mp ms resp d :
  point_ids mp = Ok ms →
  transport (realtime_request self (ps_list plant_id) ms) = Ok resp →
  resp_json resp = Ok (JDict d) →
  dict_get "error" d = None → dict_get "result_data" d = None →
  run transport (async_get_realtime_data self plant_id mp) =
    ([realtime_request self (ps_list plant_id) ms],
     Raise (KeyError (JStr "result_data"))).
Proof.
  intros Hms Hresp Hjson Herr Hrd. rewrite run_realtime, Hms. simpl.
  rewrite Hresp. simpl. rewrite Hjson. simpl. rewrite Herr. simpl.
  unfold reshape. simpl. by rewrite Hrd.
Qed.
End RealtimeTransport.

(** ** The shape of a result *)

Section ResultShape.
Context `{Builtins}.
Import Plants.

Lemma coerce_Ok point_value x :
  coerce point_value = Ok x →
  x = JNull ∨ (∃ f, x = JFloat f) ∨ (∃ s, x = JStr s).
Proof.
  destruct point_value as [|b|z|f|s|l|d]; simpl.
  - intros [= <-]. by left.
  - destruct (float_of_int _); simpl; [|done]. intros [= <-]. right. left. eauto.
  - destruct (float_of_int _); simpl; [|done]. intros [= <-]. right. left. eauto.
  - intros [= <-]. right. left. eauto.
  - destruct (float_of_str s); simpl; intros [= <-]; right; [left|right]; eauto.
  - done.
  - done.
Qed.

Lemma format_value point_id point_value point_dict r :
  _format_measure_point point_id point_value point_dict = Ok r →
  coerce point_value = Ok (reading_value r).
Proof.
  unfold _format_measure_point. destruct (coerce point_value); simpl; [|done].
  by intros [= <-].
Qed.

Lemma is_point_field_head k :
  is_point_field k = Ok true → k = String "p" (tail k).
Proof.
  destruct k as [|c k]; [done|]. simpl.
  intros [= [Hc%bool_decide_eq_true _]%andb_prop]. by subst.
Qed.

(** X9. In every result, each reading sits under its own code, its id is
    made of digits, its code resolves back to its id, and its value is
    [None], a float or a string. *)
Theorem readings_of_a_result transport self plant_id mp plants ps inner c r :
  (run transport (async_get_realtime_data self plant_id mp)).2 = Ok plants →
  plants !! ps = Some inner → inner !! c = Some r →
  reading_code r = c ∧
  isdigit (reading_id r) = true ∧
  resolve c = Ok (reading_id r) ∧
  (reading_value r = JNull ∨ (∃ f, reading_value r = JFloat f) ∨
   (∃ s, reading_value r = JStr s)).
Proof.
  intros [res Hres]%run_realtime_Ok Hps Hc.
  destruct (reshape_inner _ _ _ _ Hres Hps) as (fields & pd & data & Hdata & ->).
  apply data_as_dict_Some in Hc as [Hin Hcode].
  destruct (plant_data_elem _ _ _ _ Hdata Hin) as (k & v & _ & Hk & Hfmt).
  pose proof (format_value _ _ _ _ Hfmt) as Hv.
  apply format_Ok in Hfmt as [Hid Hcode'].
  apply is_point_field_true in Hk. rewrite <- Hid in Hk, Hcode'.
  split; [done|]. split; [done|]. split.
  - rewrite <- Hcode, Hcode'. by apply code_resolves_back.
  - by apply coerce_Ok in Hv.
Qed.

(** X10. In a plant record whose keys are distinct, no reading is lost:
    each point field is found in the record's readings under the code of
    its point, as formatted from that field's own value. *)
Theorem distinct_fields_keep_their_readings fields point_dict data k v :
  NoDup fields.*1 →
  plant_data fields point_dict = Ok data →
  (k, v) ∈ fields → is_point_field k = Ok true →
  ∃ d, _format_measure_point (tail k) v point_dict = Ok d ∧
       data_as_dict data !! code_of (tail k) = Some d.
Proof.
  intros Hnodup Hdata Hin Hk.
  destruct (plant_data_field _ _ _ _ _ Hdata Hin Hk) as (d & Hd & Hfmt).
  exists d. split; [done|].
  pose proof Hfmt as [_ Hcode]%format_Ok.
  destruct (data_as_dict_is_Some _ _ Hd) as [r Hr]. rewrite Hcode in Hr.
  rewrite Hr. f_equal.
  apply data_as_dict_Some in Hr as [Hrin Hrcode].
  destruct (plant_data_elem _ _ _ _ Hdata Hrin) as (k' & v' & Hin' & Hk' & Hfmt').
  pose proof Hfmt' as [_ Hcode']%format_Ok.
  assert (tail k' = tail k) as Htail.
  { apply code_of_injective; [by apply is_point_field_true..|].
    by rewrite <- Hcode', Hrcode. }
  assert (k' = k) as ->.
  { by rewrite (is_point_field_head _ Hk'), (is_point_field_head _ Hk), Htail. }
  assert (v' = v) as ->.
  { apply (dict_get_elem_NoDup _ _ _ Hnodup) in Hin, Hin'. rewrite Hin in Hin'.
    by injection Hin'. }
  rewrite Hfmt in Hfmt'. by injection Hfmt'.
Qed.
End ResultShape.

(** ** The plants of a result *)

Section ResultPlants.
Context `{Builtins}.
Import Plants.



Lemma plant_data_is_Ok fields point_dict :
  is_Ok (plant_data fields point_dict) = true ↔ Forall well_formed_field fields.
Proof.
  induction fields as [|[k v] fields IH]; simpl; [by split; [constructor|]|].
  rewrite Forall_cons, <- IH. unfold well_formed_field at 1. simpl.
  destruct k as [|c k]; simpl; [by split; [|intros [[] _]]|].
  destruct (bool_decide (c = "p"%char) && isdigit k); simpl.
  - unfold _format_measure_point. destruct (coerce v); simpl.
    + destruct (plant_data fields point_dict); simpl.
      * by split; [intros _; repeat split|].
      * by split; [|intros [_ ?]].
    + split; [done|]. intros [[_ Hv] _]. by specialize (Hv eq_refl).
  - split; [intros ?; repeat split; done | by intros [_ ?]].
Qed.

Lemma for_plants_is_Ok l point_dict acc :
  is_Ok (for_plants l point_dict acc) = true ↔ Forall well_formed_record l.
Proof.
  revert acc. induction l as [|plant l IH]; intros acc; simpl;
    [by split; [constructor|]|].
  rewrite Forall_cons. unfold well_formed_record at 1.
  destruct plant as [| | | | | |fields]; simpl;
    try (split; [done | by intros [(? & [=] & _) _]]).
  pose proof (plant_data_is_Ok fields point_dict) as Hfields.
  destruct (plant_data fields point_dict) as [data|]; simpl.
  - destruct (dict_get "ps_id" fields) as [ps_id|] eqn:Hid; simpl.
    + rewrite IH. split; [|by intros [_ ?]]. intros Hl. split; [|done].
      exists fields. split; [done|]. split; [by rewrite Hid | by apply Hfields].
    + split; [done|]. intros [(fields' & [= <-] & Hsome & _) _].
      rewrite Hid in Hsome. by destruct Hsome.
  - split; [done|]. intros [(fields' & [= <-] & _ & Hall) _].
    by apply Hfields in Hall.
Qed.

Lemma point_entry_is_Ok point :
  is_Ok (point_entry point) = true ↔ well_formed_point point.
Proof.
  unfold well_formed_point.
  destruct point as [| | | | | |d]; simpl;
    try (split; [done | by intros (? & [=] & _)]).
  destruct (dict_get "point_id" d) as [i|] eqn:Hi; simpl.
  - split; [|done]. intros _. exists d. by rewrite Hi.
  - split; [done|]. intros (d' & [= <-] & Hsome). rewrite Hi in Hsome.
    by destruct Hsome.
Qed.

(** What line 85 accepts: anything but an array, an object, or an int
    (or bool) that [float] rejects. *)
Lemma coerce_is_Ok point_value :
  is_Ok (coerce point_value) = true ↔
  match point_value with
  | JList _ | JDict _ => False
  | JInt z => is_Some (float_of_int z)
  | JBool b => is_Some (float_of_int (if b then 1 else 0))
  | _ => True
  end.
Proof.
  destruct point_value as [|b|z|f|s|l|d]; simpl; try done.
  - destruct (float_of_int _); simpl; [by split; [eexists|]|].
    split; [done | by intros [? [=]]].
  - destruct (float_of_int _); simpl; [by split; [eexists|]|].
    split; [done | by intros [? [=]]].
  - by destruct (float_of_str s).
Qed.

(** X12. All or nothing: answered with a body of the documented shape,
    the call returns a result exactly when the names resolve, every
    catalog entry is an object with a [point_id], and every plant record
    is an object with a [ps_id], without an empty key, whose point fields
    hold values that line 85 accepts.  One malformed record makes the
    whole call raise. *)
Theorem result_iff_well_formed points l self plant_id mp :
  is_Ok (run (answering (realtime_body points l))
             (async_get_realtime_data self plant_id mp)).2 = true ↔
  is_Ok (point_ids mp) = true ∧
  Forall well_formed_point points ∧
  Forall well_formed_record l.
Proof.
  rewrite run_realtime_body. destruct (point_ids mp); simpl;
    [|by split; [|intros [? _]]].
  pose proof (comprehension_is_Ok point_entry points) as Hpoints.
  rewrite (Forall_proper _ _ point_entry_is_Ok _ _ eq_refl) in Hpoints.
  destruct (comprehension point_entry points) as [entries|]; simpl.
  - rewrite for_plants_is_Ok. split; [|by intros (_ & _ & ?)].
    intros Hl. split; [done|]. split; [by apply Hpoints | done].
  - split; [done|]. intros (_ & Hall & _). by apply Hpoints in Hall.
Qed.
End ResultPlants.

(** ** Failures of the capability check *)

Section CapabilityFailures.
Context `{Builtins}.
Import Control.

Lemma run_answering_check data device_uuid set_type :
  (run (answering data) (async_param_config_verification device_uuid set_type)).2 =
  verdict device_uuid set_type data.
Proof. by rewrite run_verification. Qed.

(** X14. Whatever the transport does, a capability check issues exactly
    one request; the read check asks with [set_type] 2 and the update
    check with [set_type] 0, both with the device's uuid. *)
Theorem capability_check_one_request transport device_uuid set_type :
  (run transport (async_param_config_verification device_uuid set_type)).1 =
    [check_request device_uuid set_type] ∧
  (run transport (async_check_read_support device_uuid)).1 =
    [{| req_uri := check_uri;
        req_params := [("set_type", JInt 2); ("uuid", JStr device_uuid)];
        req_lang := None |}] ∧
  (run transport (async_check_update_support device_uuid)).1 =
    [{| req_uri := check_uri;
        req_params := [("set_type", JInt 0); ("uuid", JStr device_uuid)];
        req_lang := None |}].
Proof.
  unfold async_check_read_support, async_check_update_support.
  by rewrite !run_verification.
Qed.

(** X15. A failure of the transport reaches the caller unchanged: in the
    request, in [raise_for_status] (the body is then not looked at), or
    in decoding the body. *)
Theorem capability_check_failure_propagates transport device_uuid set_type e :
  transport (check_request device_uuid set_type) = Raise e ∨
  (∃ res, transport (check_request device_uuid set_type) = Ok res ∧
          (raise_for_status res = Raise e ∨
           raise_for_status res = Ok () ∧ resp_json res = Raise e)) →
  run transport (async_param_config_verification device_uuid set_type) =
    ([check_request device_uuid set_type], Raise e).
Proof.
  intros Hfail. rewrite run_verification.
  destruct Hfail as [->|(res & -> & [Hs|[Hs Hj]])]; simpl; [done| |].
  - by rewrite Hs.
  - rewrite Hs. simpl. by rewrite Hj.
Qed.

(** X16. When [result_code] is missing or is not the string ["1"], or
    when it is and the outer [check_result] is present but is not the
    string ["1"], the check raises the generic failure, whatever the
    device results say. *)
Theorem capability_check_guard_failure d device_uuid set_type :
  dict_get "result_code" d ≠ Some (JStr "1") ∨
  (∃ r cr, dict_get "result_data" d = Some (JDict r) ∧
           dict_get "check_result" r = Some cr ∧ cr ≠ JStr "1") →
  (run (answering (JDict d))
       (async_param_config_verification device_uuid set_type)).2 =
    Raise (check_failed device_uuid set_type (JDict d)).
Proof.
  intros Hguard. rewrite run_answering_check. unfold verdict, check_passed. simpl.
  destruct (eq_str (default JNull (dict_get "result_code" d)) "1") eqn:Hrc;
    simpl; [|done].
  apply eq_str_true in Hrc.
  destruct Hguard as [Hne|(r & cr & Hrd & Hcr & Hne)].
  - exfalso. apply Hne. by destruct (dict_get "result_code" d); simplify_eq/=.
  - rewrite Hrd. simpl. rewrite Hcr. simpl.
    destruct (eq_str cr "1") eqn:Hcr'; [by apply eq_str_true in Hcr'|done].
Qed.

(** X17. A body of another shape escapes as a builtin exception, not as
    [PySolarCloudException]: [AttributeError] when the body is not an
    object, [KeyError] when [result_code] is ["1"] and [result_data] is
    missing, and, both flags being ["1"], [KeyError] when
    [dev_result_list] is missing and [IndexError] when it is empty. *)
Theorem capability_check_malformed_body device_uuid set_type :
  (∀ data, (∀ d, data ≠ JDict d) →
     (run (answering data)
          (async_param_config_verification device_uuid set_type)).2 =
       Raise AttributeError) ∧
  (∀ d, dict_get "result_code" d = Some (JStr "1") →
     dict_get "result_data" d = None →
     (run (answering (JDict d))
          (async_param_config_verification device_uuid set_type)).2 =
       Raise (KeyError (JStr "result_data"))) ∧
  (∀ d r, dict_get "result_code" d = Some (JStr "1") →
     dict_get "result_data" d = Some (JDict r) →
     dict_get "check_result" r = Some (JStr "1") →
     (dict_get "dev_result_list" r = None →
      (run (answering (JDict d))
           (async_param_config_verification device_uuid set_type)).2 =
        Raise (KeyError (JStr "dev_result_list"))) ∧
     (dict_get "dev_result_list" r = Some (JList []) →
      (run (answering (JDict d))
           (async_param_config_verification device_uuid set_type)).2 =
        Raise IndexError)).
Proof.
  split; [|split].
  - intros data Hdata. rewrite run_answering_check.
    destruct data as [| | | | | |d]; try done. by destruct (Hdata d).
  - intros d Hrc Hrd. rewrite run_answering_check.
    unfold verdict, check_passed. simpl. rewrite Hrc. simpl. by rewrite Hrd.
  - intros d r Hrc Hrd Hcr.
    rewrite run_answering_check. unfold verdict, check_passed. simpl.
    rewrite Hrc. simpl. rewrite Hrd. simpl. rewrite Hcr. simpl.
    by split; intros ->.
Qed.
End CapabilityFailures.

(** ** The plant list and the plant details *)

Section PlantList.
Import Plants.

Lemma run_get_plants transport :
  run transport async_get_plants =
    ([plants_request],
     res ← transport plants_request;
     _ ← raise_for_status res;
     data ← resp_json res;
     err ← py_in "error" data;
     if err : bool then Ok (RaisePySolarCloudException res)
     else
       result_data ← getitem data "result_data";
       page_list ← getitem result_data "pageList";
       plants ← iter page_list;
       Ok (Return plants)).
Proof.
  unfold async_get_plants. simpl.
  destruct (transport _) as [res|]; simpl; [|done].
  destruct (raise_for_status res) as [[]|]; simpl; [|done].
  destruct (resp_json res) as [data|]; simpl; [|done].
  destruct (py_in "error" data) as [[]|]; simpl; [done| |done].
  destruct (getitem data "result_data") as [rd|]; simpl; [|done].
  destruct (getitem rd "pageList") as [pl|]; simpl; [|done].
  by destruct (iter pl).
Qed.

Lemma run_get_plant_details transport plant_id :
  run transport (async_get_plant_details plant_id) =
    ([details_request plant_id],
     res ← transport (details_request plant_id);
     data ← resp_json res;
     err ← py_in "error" data;
     if err : bool then Ok (RaisePySolarCloudException res)
     else
       result_data ← getitem data "result_data";
       plants ← getitem result_data "data_list";
       Ok (Return plants)).
Proof.
  unfold async_get_plant_details. simpl.
  destruct (transport _) as [res|]; simpl; [|done].
  destruct (resp_json res) as [data|]; simpl; [|done].
  destruct (py_in "error" data) as [[]|]; simpl; [done| |done].
  destruct (getitem data "result_data") as [rd|]; simpl; [|done].
  by destruct (getitem rd "data_list").
Qed.

(** X18. [async_get_plants] issues one request, for page 1 of size 100
    and never for a further page, and on a body without ["error"] whose
    [result_data.pageList] is a list it returns that list, in order. *)
Theorem get_plants_returns_first_page transport res d rd l :
  transport plants_request = Ok res →
  raise_for_status res = Ok () →
  resp_json res = Ok (JDict d) →
  dict_get "error" d = None →
  dict_get "result_data" d = Some (JDict rd) →
  dict_get "pageList" rd = Some (JList l) →
  run transport async_get_plants =
    ([{| req_uri := plants_uri;
         req_params := [("page", JInt 1); ("size", JInt 100)];
         req_lang := None |}],
     Ok (Return l)).
Proof.
  intros Hres Hstatus Hjson Herr Hrd Hpl. rewrite run_get_plants, Hres. simpl.
  rewrite Hstatus. simpl. rewrite Hjson. simpl. rewrite Herr. simpl.
  rewrite Hrd. simpl. by rewrite Hpl.
Qed.

(** X19. On a body with the error indicator, [async_get_plants] raises
    [PySolarCloudException] carrying the response object itself (not the
    decoded body, which is what [async_get_realtime_data] passes). *)
Theorem get_plants_error_carries_response transport res data :
  transport plants_request = Ok res →
  raise_for_status res = Ok () →
  resp_json res = Ok data →
  py_in "error" data = Ok true →
  run transport async_get_plants =
    ([plants_request], Ok (RaisePySolarCloudException res)).
Proof.
  intros Hres Hstatus Hjson Herr. rewrite run_get_plants, Hres. simpl.
  rewrite Hstatus. simpl. rewrite Hjson. simpl. by rewrite Herr.
Qed.

(** X20. [async_get_plants] checks the status before it decodes: when
    [raise_for_status] raises, that exception is the outcome whatever
    the body holds. *)
Theorem get_plants_checks_status_first transport res e :
  transport plants_request = Ok res →
  raise_for_status res = Raise e →
  run transport async_get_plants = ([plants_request], Raise e).
Proof.
  intros Hres Hstatus. rewrite run_get_plants, Hres. simpl. by rewrite Hstatus.
Qed.

(** X21. [async_get_plant_details] sends the ids joined by commas as
    [ps_ids] and, on a body without ["error"], returns
    [result_data.data_list] as it is, whatever the status of the
    response: [raise_for_status] is not consulted. *)
Theorem get_plant_details_returns_data_list transport plant_id res d rd v :
  transport (details_request plant_id) = Ok res →
  resp_json res = Ok (JDict d) →
  dict_get "error" d = None →
  dict_get "result_data" d = Some (JDict rd) →
  dict_get "data_list" rd = Some v →
  run transport (async_get_plant_details plant_id) =
    ([{| req_uri := details_uri;
         req_params :=
           [("ps_ids", JStr match plant_id with
                            | One p => p
                            | Many l => join "," l
                            end)];
         req_lang := None |}],
     Ok (Return v)).
Proof.
  intros Hres Hjson Herr Hrd Hv. rewrite run_get_plant_details, Hres. simpl.
  rewrite Hjson. simpl. rewrite Herr. simpl. rewrite Hrd. simpl. rewrite Hv.
  by destruct plant_id.
Qed.

(** X22. Two transports whose responses decode alike give
    [async_get_plant_details] the same requests and the same returned
    value, whatever [raise_for_status] would report. *)
Theorem get_plant_details_ignores_status t1 t2 plant_id v :
  (∀ r, resp_json <$> t1 r = resp_json <$> t2 r) →
  (run t1 (async_get_plant_details plant_id)).1 =
  (run t2 (async_get_plant_details plant_id)).1 ∧
  ((run t1 (async_get_plant_details plant_id)).2 = Ok (Return v) ↔
   (run t2 (async_get_plant_details plant_id)).2 = Ok (Return v)).
Proof.
  intros Hjson. rewrite !run_get_plant_details. split; [done|]. simpl.
  specialize (Hjson (details_request plant_id)).
  destruct (t1 _) as [res1|e1], (t2 _) as [res2|e2]; simpl in *;
    try discriminate Hjson; [|done].
  injection Hjson as Hjson. rewrite Hjson.
  destruct (resp_json res2) as [data|]; simpl; [|done].
  destruct (py_in "error" data) as [[]|]; simpl; done.
Qed.
End PlantList.


(** ** The further properties on sample calls *)

Section FurtherSamples.
Import Plants Control.
#[local] Existing Instance sample_builtins.

Lemma sample_run_result :
  (run (answering two_plant_body)
       (async_get_realtime_data default_self (Many ["P1"; "P2"])
          (Some ["daily_yield"]))).2 = Ok sample_result.
Proof. vm_compute. reflexivity. Defined.

(** X3 on an id the registry does not know. *)
Lemma code_resolves_back_sample : resolve (code_of "83099") = Ok "83099".
Proof. apply (code_resolves_back "83099"). reflexivity. Defined.

(** X4 on two registered ids. *)
Lemma code_of_injective_sample : "83022" = "83022".
Proof.
  apply (code_of_injective "83022" "83022"); reflexivity.
Defined.

(** X5 on a transport that times out. *)
Lemma realtime_transport_failure_propagates_sample :
  run (failing (TransportError "timeout"))
      (async_get_realtime_data default_self (One "P1") (Some ["power"])) =
    ([realtime_request default_self ["P1"] ["83033"]],
     Raise (TransportError "timeout")).
Proof.
  apply (realtime_transport_failure_propagates (failing (TransportError "timeout"))
           default_self (One "P1") (Some ["power"]) ["83033"]).
  - by vm_compute.
  - by left.
Defined.

(** X6 on a response whose status is an error and whose body is fine. *)
Lemma realtime_ignores_status_sample :
  run (answering two_plant_body)
      (async_get_realtime_data default_self (One "P1") None) =
  run (answering_with_status (Raise (TransportError "HTTP 500")) two_plant_body)
      (async_get_realtime_data default_self (One "P1") None).
Proof.
  apply (realtime_ignores_status (answering two_plant_body)
           (answering_with_status (Raise (TransportError "HTTP 500")) two_plant_body)).
  reflexivity.
Defined.


(** X8 on a body that only has a [result_code]. *)
Lemma realtime_missing_result_data_sample :
  run (answering (JDict [("result_code", JStr "1")]))
      (async_get_realtime_data default_self (One "P1") (Some ["power"])) =
    ([realtime_request default_self ["P1"] ["83033"]],
     Raise (KeyError (JStr "result_data"))).
Proof.
  apply (realtime_missing_result_data (answering (JDict [("result_code", JStr "1")]))
           default_self (One "P1") (Some ["power"]) ["83033"]
           {| raise_for_status := Ok ();
              resp_json := Ok (JDict [("result_code", JStr "1")]) |}
           [("result_code", JStr "1")]).
  - by vm_compute.
  - reflexivity.
  - reflexivity.
  - reflexivity.
  - reflexivity.
Defined.

(** X9 on the reading of ["P1"] in the sample result. *)
Lemma readings_of_a_result_sample :
  reading_code sample_reading = "daily_yield" ∧
  isdigit (reading_id sample_reading) = true ∧
  resolve "daily_yield" = Ok (reading_id sample_reading) ∧
  (reading_value sample_reading = JNull ∨
   (∃ f, reading_value sample_reading = JFloat f) ∨
   (∃ s, reading_value sample_reading = JStr s)).
Proof.
  apply (readings_of_a_result (answering two_plant_body) default_self
           (Many ["P1"; "P2"]) (Some ["daily_yield"]) sample_result "P1"
           {["daily_yield" := sample_reading]}).
  - exact sample_run_result.
  - unfold sample_result. by rewrite lookup_insert_ne, lookup_insert_eq.
  - apply lookup_singleton_eq.
Defined.

(** X10 on the record of ["P1"]. *)
Lemma distinct_fields_keep_their_readings_sample :
  ∃ d, _format_measure_point "83022" (JStr "123.4") ∅ = Ok d ∧
       data_as_dict
         [{| reading_id := "83022"; reading_code := "daily_yield";
             reading_value := JFloat 0x1.ed9999999999ap+6;
             reading_unit := JNull; reading_name := JNull |}]
       !! code_of "83022" = Some d.
Proof.
  apply (distinct_fields_keep_their_readings
           [("ps_id", JStr "P1"); ("p83022", JStr "123.4")] ∅ _ "p83022" (JStr "123.4")).
  - apply (bool_decide_unpack _). by vm_compute.
  - by vm_compute.
  - right. left.
  - reflexivity.
Defined.


(** X15 on a response whose status is an error. *)
Lemma capability_check_failure_propagates_sample :
  run (answering_with_status (Raise (TransportError "HTTP 500"))
         (check_body (JStr "1")))
      (async_param_config_verification "dev-1" 2) =
    ([check_request "dev-1" 2], Raise (TransportError "HTTP 500")).
Proof.
  apply (capability_check_failure_propagates
           (answering_with_status (Raise (TransportError "HTTP 500"))
              (check_body (JStr "1"))) "dev-1" 2).
  right. eexists. split; [reflexivity|]. by left.
Defined.

(** X16 on a body whose [result_code] is ["0"]. *)
Lemma capability_check_guard_failure_sample :
  (run (answering (JDict [("result_code", JStr "0")]))
       (async_param_config_verification "dev-1" 2)).2 =
    Raise (check_failed "dev-1" 2 (JDict [("result_code", JStr "0")])).
Proof.
  apply (capability_check_guard_failure [("result_code", JStr "0")] "dev-1" 2).
  left. discriminate.
Defined.

(** X18 on a page of two plants. *)
Lemma get_plants_returns_first_page_sample :
  run (answering (plants_body [JDict [("ps_id", JInt 1)]; JDict [("ps_id", JInt 2)]]))
      async_get_plants =
    ([{| req_uri := plants_uri;
         req_params := [("page", JInt 1); ("size", JInt 100)];
         req_lang := None |}],
     Ok (Return [JDict [("ps_id", JInt 1)]; JDict [("ps_id", JInt 2)]])).
Proof.
  apply (get_plants_returns_first_page
           (answering (plants_body [JDict [("ps_id", JInt 1)]; JDict [("ps_id", JInt 2)]]))
           {| raise_for_status := Ok ();
              resp_json :=
                Ok (plants_body [JDict [("ps_id", JInt 1)]; JDict [("ps_id", JInt 2)]]) |}
           [("result_code", JStr "1");
            ("result_data",
             JDict [("pageList", JList [JDict [("ps_id", JInt 1)]; JDict [("ps_id", JInt 2)]]);
                    ("rowCount", JInt 2)])]
           [("pageList", JList [JDict [("ps_id", JInt 1)]; JDict [("ps_id", JInt 2)]]);
            ("rowCount", JInt 2)]); reflexivity.
Defined.

(** X19 on a body with the key ["error"]. *)
Lemma get_plants_error_carries_response_sample :
  run (answering error_body) async_get_plants =
    ([plants_request],
     Ok (RaisePySolarCloudException
           {| raise_for_status := Ok (); resp_json := Ok error_body |})).
Proof.
  apply (get_plants_error_carries_response (answering error_body)
           {| raise_for_status := Ok (); resp_json := Ok error_body |} error_body);
    reflexivity.
Defined.

(** X20 on a response whose status is an error and whose body is fine. *)
Lemma get_plants_checks_status_first_sample :
  run (answering_with_status (Raise (TransportError "HTTP 401")) (plants_body []))
      async_get_plants =
    ([plants_request], Raise (TransportError "HTTP 401")).
Proof.
  apply (get_plants_checks_status_first
           (answering_with_status (Raise (TransportError "HTTP 401")) (plants_body []))
           {| raise_for_status := Raise (TransportError "HTTP 401");
              resp_json := Ok (plants_body []) |}); reflexivity.
Defined.

(** X21 on a list of two ids, under an error status. *)
Lemma get_plant_details_returns_data_list_sample :
  run (answering_with_status (Raise (TransportError "HTTP 500"))
         (details_body (JList [JDict [("ps_id", JInt 1)]])))
      (async_get_plant_details (Many ["1"; "2"])) =
    ([{| req_uri := details_uri;
         req_params := [("ps_ids", JStr (join "," ["1"; "2"]))];
         req_lang := None |}],
     Ok (Return (JList [JDict [("ps_id", JInt 1)]]))).
Proof.
  apply (get_plant_details_returns_data_list
           (answering_with_status (Raise (TransportError "HTTP 500"))
              (details_body (JList [JDict [("ps_id", JInt 1)]])))
           (Many ["1"; "2"])
           {| raise_for_status := Raise (TransportError "HTTP 500");
              resp_json := Ok (details_body (JList [JDict [("ps_id", JInt 1)]])) |}
           [("result_code", JStr "1");
            ("result_data", JDict [("data_list", JList [JDict [("ps_id", JInt 1)]])])]
           [("data_list", JList [JDict [("ps_id", JInt 1)]])]); reflexivity.
Defined.

(** X22 on the same body under a good and under an error status. *)
Lemma get_plant_details_ignores_status_sample :
  (run (answering (details_body JNull)) (async_get_plant_details (One "1"))).1 =
  (run (answering_with_status (Raise (TransportError "HTTP 500")) (details_body JNull))
       (async_get_plant_details (One "1"))).1 ∧
  ((run (answering (details_body JNull)) (async_get_plant_details (One "1"))).2 =
     Ok (Return JNull) ↔
   (run (answering_with_status (Raise (TransportError "HTTP 500")) (details_body JNull))
        (async_get_plant_details (One "1"))).2 = Ok (Return JNull)).
Proof.
  apply (get_plant_details_ignores_status (answering (details_body JNull))
           (answering_with_status (Raise (TransportError "HTTP 500"))
              (details_body JNull))).
  reflexivity.
Defined.

Example join_samples :
  join "," ["1"; "2"; "3"] = "1,2,3" ∧ join "," ["1"] = "1" ∧ join "," [] = "".
Proof. by vm_compute. Qed.
End FurtherSamples.
